(** * podsync resolver: a shallow embedding of [cmd/resolver/resolver.py]

    The resolver turns a feed identifier and a video identifier into one
    playable URL.  It reads the feed's metadata from one DynamoDB table,
    bumps a per-feed, per-day counter in a second table, enforces the daily
    quota of the anonymous tier, asks youtube_dl for the candidate streams
    and picks one of them.

    The Python is modelled as a state-and-exception monad over a [world]
    that holds the two tables, the clock, the list objects of the Python
    heap and a trace of the calls made to the outside.  The extraction
    engine and the local-time conversion are Section variables. *)

From Stdlib Require Import ZArith String Ascii List Sorting.Sorted Permutation Lia.
From stdpp Require Import gmap strings list fin_maps pretty.

Open Scope string_scope.
Open Scope Z_scope.

(** ** Python strings *)

Module PyStr.

(** [not s] for a string: the empty string is the only falsy one. *)
Definition falsy (s : string) : bool :=
  match s with EmptyString => true | String _ _ => false end.

(** [s.rfind(c)]: the highest index of [c], or -1. *)
Fixpoint rfind (c : ascii) (s : string) : Z :=
  match s with
  | EmptyString => -1
  | String a s' =>
      let r := rfind c s' in
      if 0 <=? r then r + 1
      else if Ascii.eqb a c then 0 else -1
  end.

(** [s[:i]] and [s[i:]] for [0 <= i <= len(s)]. *)
Definition slice_to (s : string) (i : Z) : string :=
  String.substring 0 (Z.to_nat i) s.

Definition slice_from (s : string) (i : Z) : string :=
  String.substring (Z.to_nat i) (String.length s - Z.to_nat i) s.

(** [tpl.format(arg)] for a template with one [{}] field. *)
Fixpoint format (tpl arg : string) : string :=
  match tpl with
  | EmptyString => EmptyString
  | String "{" (String "}" rest) => arg ++ rest
  | String a rest => String a (format rest arg)
  end.

(** [s.startswith(p)] *)
Definition startswith (s p : string) : bool := String.prefix p s.

(** ['... %d ...' % n] for an integer. *)
Definition percent_d (before : string) (n : Z) (after : string) : string :=
  before ++ pretty n ++ after.

End PyStr.

(** ** [os.path.splitext] (posixpath)

    [genericpath._splitext(p, '/', None, '.')]: the extension starts at the
    last dot of the last path component, unless that component has only
    dots before it (leading dots belong to the root). *)

Module OsPath.

(** The [while filenameIndex < dotIndex] loop: [true] when it returns the
    split from inside (a character other than the dot was met), [false]
    when it runs to the end. *)
Fixpoint skip_leading_dots (p : string) (filenameIndex steps : nat) : bool :=
  match steps with
  | O => false
  | S k =>
      match String.get filenameIndex p with
      | Some c =>
          if Ascii.eqb c "." then skip_leading_dots p (S filenameIndex) k
          else true
      | None => true
      end
  end.

Definition splitext (p : string) : string * string :=
  let sepIndex := PyStr.rfind "/" p in
  let dotIndex := PyStr.rfind "." p in
  if sepIndex <? dotIndex then
    let filenameIndex := sepIndex + 1 in
    if skip_leading_dots p (Z.to_nat filenameIndex)
                         (Z.to_nat (dotIndex - filenameIndex))
    then (PyStr.slice_to p dotIndex, PyStr.slice_from p dotIndex)
    else (p, "")
  else (p, "").

End OsPath.

(** The specification's reading of the same step, "stripping any trailing
    file-extension suffix": everything from the last dot on is dropped.
    It is only compared with [OsPath.splitext], the code never runs it. *)
Definition spec_strip_suffix (video_id : string) : string :=
  let dotIndex := PyStr.rfind "." video_id in
  if 0 <=? dotIndex then PyStr.slice_to video_id dotIndex else video_id.

(** ** Naive datetimes *)

Record datetime := mk_datetime {
  dt_year : Z; dt_month : Z; dt_day : Z;
  dt_hour : Z; dt_minute : Z; dt_second : Z
}.

Module Calendar.

Definition isleap (y : Z) : bool :=
  (y mod 4 =? 0) && (negb (y mod 100 =? 0) || (y mod 400 =? 0)).

(** [calendar.monthrange(year, month)[1]] *)
Definition days_in_month (y m : Z) : Z :=
  if m =? 2 then (if isleap y then 29 else 28)
  else if (m =? 4) || (m =? 6) || (m =? 9) || (m =? 11) then 30
  else 31.

(** [dt + relativedelta(months=n)] for [1 <= n <= 12]: the month moves,
    the day is clipped to the length of the target month. *)
Definition add_months (dt : datetime) (n : Z) : datetime :=
  let month := dt_month dt + n in
  let year := if 12 <? month then dt_year dt + 1 else dt_year dt in
  let month := if 12 <? month then month - 12 else month in
  let day := Z.min (days_in_month year month) (dt_day dt) in
  {| dt_year := year; dt_month := month; dt_day := day;
     dt_hour := dt_hour dt; dt_minute := dt_minute dt;
     dt_second := dt_second dt |}.

(** [int(dt.strftime('%Y%m%d'))] *)
Definition day_number (dt : datetime) : Z :=
  dt_year dt * 10000 + dt_month dt * 100 + dt_day dt.

(** Days from 1970-01-01 to a civil date, and the epoch seconds of a
    datetime read as UTC: what [int(dt.timestamp())] gives for a naive
    datetime when the local time zone of the process is UTC.  The
    examples use it; the theorems hold for any conversion. *)
Definition days_from_civil (y m d : Z) : Z :=
  let y' := if m <=? 2 then y - 1 else y in
  let era := y' / 400 in
  let yoe := y' - era * 400 in
  let mp := (m + 9) mod 12 in
  let doy := (153 * mp + 2) / 5 + d - 1 in
  let doe := yoe * 365 + yoe / 4 - yoe / 100 + doy in
  era * 146097 + doe - 719468.

Definition utc_timestamp (dt : datetime) : Z :=
  days_from_civil (dt_year dt) (dt_month dt) (dt_day dt) * 86400
  + dt_hour dt * 3600 + dt_minute dt * 60 + dt_second dt.

End Calendar.

(** ** Exceptions

    The two classes the module declares, the built-in ones its statements
    can raise, and [DownloadError] for whatever youtube_dl raises from
    inside [extract_info]. *)

Inductive exn :=
| InvalidUsage (msg : string)
| QuotaExceeded (msg : string)
| KeyError (key : string)
| IndexError (msg : string)
| TypeError (msg : string)
| ValueError (msg : string)
| StopIteration
| DownloadError (msg : string).

(** [str(e)], as [print(e)] shows it. *)
Definition exn_str (e : exn) : string :=
  match e with
  | InvalidUsage msg | QuotaExceeded msg | IndexError msg
  | TypeError msg | ValueError msg | DownloadError msg => msg
  | KeyError key => "'" ++ key ++ "'"
  | StopIteration => ""
  end.

Inductive outcome (A : Type) :=
| Returns (a : A)
| Raises (e : exn).
Arguments Returns {A} a.
Arguments Raises {A} e.

(** ** Data *)

(** An item of the Feeds table, projected on the four attributes
    [_get_metadata] asks for; an attribute the item lacks is [None]. *)
Record feed_item := mk_feed_item {
  Provider : option string;
  Format : option string;
  Quality : option string;
  FeatureLevel : option Z
}.

(** The dict [_get_metadata] returns: the same attributes under lower-case
    keys. *)
Record metadata := mk_metadata {
  md_provider : option string;
  md_format : option string;
  md_quality : option string;
  md_featurelevel : option Z
}.

(** An item of the ResolveCounters table, keyed by (FeedID, Day). *)
Record counter_item := mk_counter_item {
  Count : option Z;
  Expires : option Z
}.

(** One entry of [info['formats']]: the keys the resolver reads.  [None]
    is an absent key. *)
Record fmt_dict := mk_fmt {
  f_ext : option string;
  f_format_id : option string;
  f_width : option Z;
  f_url : option string;
  f_fragment_base_url : option string
}.

(** Python lists are objects: a list value lives in the heap and is
    handled through its location. *)
Definition loc := nat.

(** The dict [extract_info] returns; only its ['formats'] key is read. *)
Record info_dict := mk_info { info_formats : option loc }.

(** The options the resolver builds its [YoutubeDL] with. *)
Record ytdl_opts := mk_opts {
  quiet : bool;
  no_warnings : bool;
  forceurl : bool;
  simulate : bool;
  skip_download : bool;
  call_home : bool;
  nocheckcertificate : bool
}.

Definition opts : ytdl_opts :=
  {| quiet := true; no_warnings := true; forceurl := true; simulate := true;
     skip_download := true; call_home := false; nocheckcertificate := true |}.

(** A [YoutubeDL] object, as far as the resolver uses one.
    [extract_info url] raises (the message of the error) or returns the
    value of the ['formats'] key of the info dict, [None] when the dict has
    no such key.  [build_format_selector fmt] is the selector for a format
    expression: from the candidate list it yields the matching candidates,
    best match first; youtube_dl runs it on a deep copy of its argument. *)
Record YoutubeDL := mk_ytdl {
  yt_extract_info : string -> string + option (list fmt_dict);
  yt_build_format_selector : string -> list fmt_dict -> list fmt_dict
}.

(** What the resolver does to the outside, in order. *)
Inductive event :=
| GetItem (feed_id : string)
| UpdateItem (feed_id : string) (day : Z)
| ExtractInfo (url : string)
| Print (line : string).

Record world := mk_world {
  feeds_table : gmap string feed_item;
  counter_table : gmap (string * Z) counter_item;
  utcnow : datetime;
  heap : list (list fmt_dict);
  trace : list event
}.

Definition ANONYMOUS_FEED_REQUESTS_LIMIT : Z := 100.

Definition url_formats : gmap string string :=
  <["youtube" := "https://youtube.com/watch?v={}"]>
  (<["vimeo" := "https://vimeo.com/{}"]> ∅).

(** ** The monad: state, and exceptions that keep the state *)

Definition M (A : Type) : Type := world -> outcome A * world.

Definition ret {A} (a : A) : M A := fun w => (Returns a, w).

Definition raise {A} (e : exn) : M A := fun w => (Raises e, w).

Definition bind {A B} (c : M A) (k : A -> M B) : M B :=
  fun w =>
    match c w with
    | (Returns a, w') => k a w'
    | (Raises e, w') => (Raises e, w')
    end.

Notation "'let!' x ':=' c 'in' k" := (bind c (fun x => k))
  (at level 10, x name, c at level 100, k at level 200).

(** [try: body except Exception as e: handler(e)] *)
Definition try_except {A} (body : M A) (handler : exn -> M A) : M A :=
  fun w =>
    match body w with
    | (Returns a, w') => (Returns a, w')
    | (Raises e, w') => handler e w'
    end.

Definition emit (e : event) : M unit :=
  fun w =>
    (Returns tt,
     {| feeds_table := feeds_table w; counter_table := counter_table w;
        utcnow := utcnow w; heap := heap w; trace := trace w ++ [e] |}).

Definition print (line : string) : M unit := emit (Print line).

(** [d[key]] on a dict whose entry for [key] is [field]. *)
Definition getitem {A} (key : string) (field : option A) : M A :=
  match field with
  | Some v => ret v
  | None => raise (KeyError key)
  end.

(** [key in d] *)
Definition contains {A} (field : option A) : bool :=
  match field with Some _ => true | None => false end.

(** A new list object: it gets the next free location. *)
Definition push_list (l : list fmt_dict) (w : world) : world :=
  {| feeds_table := feeds_table w; counter_table := counter_table w;
     utcnow := utcnow w; heap := heap w ++ [l]; trace := trace w |}.

Definition new_list (l : list fmt_dict) : M loc :=
  fun w => (Returns (length (heap w)), push_list l w).

(** The elements of a list object.  Every reference the program holds is
    to an allocated list; an unallocated location reads as the empty list
    only to keep the function total. *)
Definition elements_of (r : loc) : M (list fmt_dict) :=
  fun w => (Returns (default [] (heap w !! r)), w).

(** [l[i]], negative indices counting from the end. *)
Definition py_index {A} (l : list A) (i : Z) : M A :=
  let n := Z.of_nat (length l) in
  let j := if i <? 0 then i + n else i in
  if (j <? 0) || (n <=? j) then raise (IndexError "list index out of range")
  else
    match l !! Z.to_nat j with
    | Some x => ret x
    | None => raise (IndexError "list index out of range")
    end.

(** [next(it)] on an iterator yielding the elements of [l]. *)
Definition next {A} (l : list A) : M A :=
  match l with
  | x :: _ => ret x
  | [] => raise StopIteration
  end.

(** [for x in l: body(x)], collecting the results. *)
Fixpoint for_each {A B} (body : A -> M B) (l : list A) : M (list B) :=
  match l with
  | [] => ret []
  | x :: l' =>
      let! y := body x in
      let! ys := for_each body l' in
      ret (y :: ys)
  end.

(** [sorted(l, key=..., reverse=True)] on keys already computed: a stable
    sort by decreasing key, elements of equal key keep their order. *)
Fixpoint insert_desc {A} (k : Z) (x : A) (l : list (Z * A)) : list (Z * A) :=
  match l with
  | [] => [(k, x)]
  | (k', y) :: l' =>
      if k' <=? k then (k, x) :: (k', y) :: l'
      else (k', y) :: insert_desc k x l'
  end.

Fixpoint sort_desc {A} (l : list (Z * A)) : list (Z * A) :=
  match l with
  | [] => []
  | (k, x) :: l' => insert_desc k x (sort_desc l')
  end.

Definition sorted_reverse {A} (keyed : list (Z * A)) : list A :=
  map snd (sort_desc keyed).

(** ** The resolver *)

Section Resolver.

(** [dt.timestamp()] of a naive datetime, truncated by [int]: the process's
    local time zone decides it. *)
Variable timestamp : datetime -> Z.

(** [youtube_dl.YoutubeDL(opts)] *)
Variable new_YoutubeDL : ytdl_opts -> YoutubeDL.

(** [feeds_table.get_item(Key={'HashID': feed_id}, ...)['Item']] *)
Definition feeds_get_item (feed_id : string) : M feed_item :=
  let! _ := emit (GetItem feed_id) in
  fun w =>
    match feeds_table w !! feed_id with
    | Some item => (Returns item, w)
    | None => (Raises (KeyError "Item"), w)
    end.

(** [counter_table.update_item] with the update expression
    [ADD #count :one SET #exp = if_not_exists(#exp, :ttl)] and
    [ReturnValues='UPDATED_NEW']: one atomic step of the store.  [ADD]
    starts from 0 when the attribute is absent; [if_not_exists] keeps an
    [Expires] that is already there.  The result is
    [response['Attributes']]. *)
Definition counter_update_item (feed_id : string) (day : Z) (ttl : Z)
  : M counter_item :=
  let! _ := emit (UpdateItem feed_id day) in
  fun w =>
    let old := counter_table w !! (feed_id, day) in
    let updated :=
      {| Count := Some (default 0 (old ≫= Count) + 1);
         Expires := Some (default ttl (old ≫= Expires)) |} in
    (Returns updated,
     {| feeds_table := feeds_table w;
        counter_table := <[(feed_id, day) := updated]> (counter_table w);
        utcnow := utcnow w; heap := heap w; trace := trace w |}).

(** [datetime.utcnow()] *)
Definition datetime_utcnow : M datetime := fun w => (Returns (utcnow w), w).

Definition _get_metadata (feed_id : string) : M metadata :=
  let! item := feeds_get_item feed_id in
  ret {| md_provider := Provider item; md_format := Format item;
         md_quality := Quality item; md_featurelevel := FeatureLevel item |}.

(** Returns [None] (Python's) for an empty feed id, the new count
    otherwise. *)
Definition _update_resolve_counter (feed_id : string) : M (option Z) :=
  if PyStr.falsy feed_id then ret None
  else
    let! now := datetime_utcnow in
    let day := Calendar.day_number now in
    let expires := Calendar.add_months now 3 in
    let! attrs := counter_update_item feed_id day (timestamp expires) in
    let! count := getitem "Count" (Count attrs) in
    ret (Some count).

(** [ytdl.extract_info(url, download=False)]: the call is recorded, the
    candidate list of the result is a new list object. *)
Definition extract_info (ytdl : YoutubeDL) (url : string) : M info_dict :=
  let! _ := emit (ExtractInfo url) in
  match yt_extract_info ytdl url with
  | inl msg => raise (DownloadError msg)
  | inr None => ret {| info_formats := None |}
  | inr (Some l) =>
      let! r := new_list l in
      ret {| info_formats := Some r |}
  end.

(** [selector(info)] for [selector = ytdl.build_format_selector(fmt)] *)
Definition run_selector (ytdl : YoutubeDL) (fmt : string) (info : info_dict)
  : M (list fmt_dict) :=
  let! r := getitem "formats" (info_formats info) in
  let! l := elements_of r in
  ret (yt_build_format_selector ytdl fmt l).

(** The [if is_video: ... else: ...] block of [_yt_choose_url] that
    chooses the format expression. *)
Definition yt_format_expression (is_video is_high_quality : bool) : string :=
  if is_video then
    (if is_high_quality then "best[ext=mp4]" else "worst[ext=mp4]")
  else
    (if is_high_quality then "bestaudio" else "worstaudio").

Definition _yt_choose_url (ytdl : YoutubeDL) (info : info_dict)
  (metadata : metadata) : M string :=
  let! format := getitem "format" (md_format metadata) in
  let is_video := String.eqb format "video" in
  let! quality := getitem "quality" (md_quality metadata) in
  let is_high_quality := String.eqb quality "high" in
  let fmt := yt_format_expression is_video is_high_quality in
  let! candidates := run_selector ytdl fmt info in
  let! selected := next candidates in
  if contains (f_fragment_base_url selected) then
    getitem "fragment_base_url" (f_fragment_base_url selected)
  else
    getitem "url" (f_url selected).

(** The condition of the list comprehension of [_vimeo_choose_url]:
    [x['ext'] == 'mp4' and x['format_id'].startswith('http-')]. *)
Definition vimeo_keep (x : fmt_dict) : M bool :=
  let! ext := getitem "ext" (f_ext x) in
  if String.eqb ext "mp4" then
    let! format_id := getitem "format_id" (f_format_id x) in
    ret (PyStr.startswith format_id "http-")
  else ret false.

(** [[x for x in l if cond(x)]] *)
Fixpoint comprehension (cond : fmt_dict -> M bool) (l : list fmt_dict)
  : M (list fmt_dict) :=
  match l with
  | [] => ret []
  | x :: l' =>
      let! b := cond x in
      let! rest := comprehension cond l' in
      ret (if b then x :: rest else rest)
  end.

(** [sorted(l, key=lambda x: x['width'], reverse=True)]: the keys of all
    elements are computed first, then a new list is built. *)
Definition py_sorted_by_width_reverse (r : loc) : M loc :=
  let! l := elements_of r in
  let! keyed :=
    for_each (fun x => let! w := getitem "width" (f_width x) in ret (w, x)) l in
  new_list (sorted_reverse keyed).

Definition _vimeo_choose_url (info : info_dict) (metadata : metadata)
  : M string :=
  let! formats := getitem "formats" (info_formats info) in
  let! candidates := elements_of formats in
  let! kept := comprehension vimeo_keep candidates in
  let! fmt_list := new_list kept in
  let! ordered := py_sorted_by_width_reverse fmt_list in
  let! quality := getitem "quality" (md_quality metadata) in
  let is_high_quality := String.eqb quality "high" in
  let! ordered_elems := elements_of ordered in
  let! item :=
    (if is_high_quality then py_index ordered_elems 0
     else py_index ordered_elems (-1)) in
  getitem "url" (f_url item).

(** The [if provider == 'youtube': ... elif ... else: ...] block of
    [_resolve]: the selection step, one strategy per provider. *)
Definition select (provider : string) (ytdl : YoutubeDL) (info : info_dict)
  (metadata : metadata) : M string :=
  if String.eqb provider "youtube" then
    _yt_choose_url ytdl info metadata
  else if String.eqb provider "vimeo" then
    _vimeo_choose_url info metadata
  else raise (ValueError "undefined provider").

Definition _resolve (url : string) (metadata : metadata) : M string :=
  if PyStr.falsy url then raise (InvalidUsage "Invalid URL")
  else
    let! _ := print ("Resolving " ++ url) in
    try_except
      (let! provider := getitem "provider" (md_provider metadata) in
       let ytdl := new_YoutubeDL opts in
       let! info := extract_info ytdl url in
       select provider ytdl info metadata)
      (fun e => let! _ := print (exn_str e) in raise e).

(** [count > ANONYMOUS_FEED_REQUESTS_LIMIT]; ordering [None] against an
    integer is a [TypeError]. *)
Definition count_gt (count : option Z) (limit : Z) : M bool :=
  match count with
  | Some c => ret (limit <? c)
  | None =>
      raise (TypeError "'>' not supported between instances of 'NoneType' and 'int'")
  end.

Definition download (feed_id video_id : string) : M string :=
  if PyStr.falsy feed_id then raise (InvalidUsage "Invalid feed id")
  else
    let video_id := fst (OsPath.splitext video_id) in
    if PyStr.falsy video_id then raise (InvalidUsage "Invalid video id")
    else
      let! item := _get_metadata feed_id in
      let! count := _update_resolve_counter feed_id in
      let! level := getitem "featurelevel" (md_featurelevel item) in
      let! over := count_gt count ANONYMOUS_FEED_REQUESTS_LIMIT in
      if over && (level =? 0) then
        raise (QuotaExceeded
                 (PyStr.percent_d "Too many requests. Daily limit is "
                    ANONYMOUS_FEED_REQUESTS_LIMIT
                    ". Consider upgrading account to get unlimited access"))
      else
        let! provider := getitem "provider" (md_provider item) in
        let! tpl := getitem provider (url_formats !! provider) in
        if PyStr.falsy tpl then raise (InvalidUsage "Invalid feed")
        else
          let url := PyStr.format tpl video_id in
          _resolve url item.

End Resolver.

(** ** Vocabulary of the statements *)

(** The exceptions a computation can end with. *)
Definition raises_only {A} (P : exn -> Prop) (c : M A) : Prop :=
  forall w e w', c w = (Raises e, w') -> P e.

(** Every run of a computation relates the world before to the world
    after. *)
Definition steps_in {A} (R : world -> world -> Prop) (c : M A) : Prop :=
  forall w o w', c w = (o, w') -> R w w'.

(** What the selection step does to the world: it may allocate lists,
    nothing else changes, and no allocated list is touched. *)
Definition allocates_only (w w' : world) : Prop :=
  feeds_table w' = feeds_table w /\
  counter_table w' = counter_table w /\
  utcnow w' = utcnow w /\
  trace w' = trace w /\
  heap w `prefix_of` heap w'.

(** What the resolution does to the world once the counter is updated:
    the tables and the clock stay, the heap and the trace grow. *)
Definition tables_kept (w w' : world) : Prop :=
  feeds_table w' = feeds_table w /\
  counter_table w' = counter_table w /\
  utcnow w' = utcnow w /\
  trace w `prefix_of` trace w' /\
  heap w `prefix_of` heap w'.

(** The exceptions the two selection strategies raise by themselves. *)
Definition selection_exn (e : exn) : Prop :=
  match e with
  | KeyError _ | IndexError _ | StopIteration => True
  | _ => False
  end.

(** The exceptions [_resolve] raises when the provider is one of the two
    it knows. *)
Definition resolve_exn (e : exn) : Prop :=
  match e with
  | KeyError _ | IndexError _ | StopIteration | DownloadError _ => True
  | InvalidUsage msg => msg = "Invalid URL"
  | _ => False
  end.

(** The exceptions [download] ends with. *)
Definition download_exn (e : exn) : Prop :=
  match e with
  | InvalidUsage msg =>
      msg = "Invalid feed id" \/ msg = "Invalid video id" \/ msg = "Invalid URL"
  | QuotaExceeded _ | KeyError _ | IndexError _ | StopIteration
  | DownloadError _ => True
  | TypeError _ | ValueError _ => False
  end.

Definition is_QuotaExceeded {A} (o : outcome A) : Prop :=
  match o with Raises (QuotaExceeded _) => True | _ => False end.

Definition is_InvalidUsage {A} (o : outcome A) : Prop :=
  match o with Raises (InvalidUsage _) => True | _ => False end.

(** The filter of the vimeo strategy as a predicate on candidates that
    carry the keys it reads. *)
Definition vimeo_match (x : fmt_dict) : bool :=
  match f_ext x, f_format_id x with
  | Some ext, Some format_id =>
      String.eqb ext "mp4" && PyStr.startswith format_id "http-"
  | _, _ => false
  end.

(** The comprehension reads ['ext'] of every candidate and ['format_id']
    of the mp4 ones. *)
Definition filter_keys (x : fmt_dict) : Prop :=
  is_Some (f_ext x) /\ (f_ext x = Some "mp4" -> is_Some (f_format_id x)).

(** The sort reads ['width'] of every candidate that is kept, and the
    result is the ['url'] of one of them. *)
Definition sort_keys (x : fmt_dict) : Prop :=
  is_Some (f_width x) /\ is_Some (f_url x).

Definition width_of (x : fmt_dict) : Z := default 0 (f_width x).

(** The order of a list sorted by decreasing key. *)
Definition key_desc {A} (a b : Z * A) : Prop := b.1 <= a.1.

(** [d['url']] as an outcome. *)
Definition url_outcome (x : fmt_dict) : outcome string :=
  match f_url x with
  | Some u => Returns u
  | None => Raises (KeyError "url")
  end.

(** The outcome of indexing: the url of the element, or the
    [IndexError] of an empty list. *)
Definition picked (x : option fmt_dict) : outcome string :=
  match x with
  | Some x => url_outcome x
  | None => Raises (IndexError "list index out of range")
  end.

(** A computation that neither reads nor writes the world. *)
Definition stateless {A} (c : M A) : Prop :=
  exists o, forall w, c w = (o, w).

(** The same metadata with another stored format, or quality. *)
Definition set_format (format : string) (md : metadata) : metadata :=
  {| md_provider := md_provider md; md_format := Some format;
     md_quality := md_quality md; md_featurelevel := md_featurelevel md |}.

Definition set_quality (quality : string) (md : metadata) : metadata :=
  {| md_provider := md_provider md; md_format := md_format md;
     md_quality := Some quality; md_featurelevel := md_featurelevel md |}.

(** The clock moves between requests. *)
Definition set_clock (now : datetime) (w : world) : world :=
  {| feeds_table := feeds_table w; counter_table := counter_table w;
     utcnow := now; heap := heap w; trace := trace w |}.

(** A sequence of counter updates, each for a feed at an instant. *)
Fixpoint run_updates (timestamp : datetime -> Z)
  (calls : list (string * datetime)) (w : world) : world :=
  match calls with
  | [] => w
  | (feed_id, now) :: rest =>
      run_updates timestamp rest
        (snd (_update_resolve_counter timestamp feed_id (set_clock now w)))
  end.

(** The calls of a sequence that hit one key of the counter table. *)
Definition hits (feed_id : string) (day : Z)
  (calls : list (string * datetime)) : list (string * datetime) :=
  filter (fun c => c.1 = feed_id /\ Calendar.day_number c.2 = day) calls.

(** The statements of [download] after the quota check, from
    [provider = item['provider']] to the end, named for the proofs. *)
Definition download_after_quota (new_YoutubeDL : ytdl_opts -> YoutubeDL)
  (video_id : string) (item : metadata) : M string :=
  let! provider := getitem "provider" (md_provider item) in
  let! tpl := getitem provider (url_formats !! provider) in
  if PyStr.falsy tpl then raise (InvalidUsage "Invalid feed")
  else
    let url := PyStr.format tpl video_id in
    _resolve new_YoutubeDL url item.

(** The key of today's counter of a feed, its value after one more
    request, and the item the update leaves under the key. *)
Definition counter_key (feed_id : string) (w : world) : string * Z :=
  (feed_id, Calendar.day_number (utcnow w)).

Definition new_count (feed_id : string) (w : world) : Z :=
  default 0 (counter_table w !! counter_key feed_id w ≫= Count) + 1.

Definition new_counter_item (timestamp : datetime -> Z) (feed_id : string)
  (w : world) : counter_item :=
  {| Count := Some (new_count feed_id w);
     Expires :=
       Some (default (timestamp (Calendar.add_months (utcnow w) 3))
                     (counter_table w !! counter_key feed_id w ≫= Expires)) |}.

(** The world when [download] reaches the quota check: the metadata was
    read and the counter updated. *)
Definition at_quota_check (timestamp : datetime -> Z) (feed_id : string)
  (w : world) : world :=
  {| feeds_table := feeds_table w;
     counter_table :=
       <[counter_key feed_id w := new_counter_item timestamp feed_id w]>
         (counter_table w);
     utcnow := utcnow w; heap := heap w;
     trace := (trace w ++ [GetItem feed_id])
              ++ [UpdateItem feed_id (Calendar.day_number (utcnow w))] |}.

Definition quota_message : string :=
  PyStr.percent_d "Too many requests. Daily limit is "
    ANONYMOUS_FEED_REQUESTS_LIMIT
    ". Consider upgrading account to get unlimited access".

Definition item_metadata (item : feed_item) : metadata :=
  {| md_provider := Provider item; md_format := Format item;
     md_quality := Quality item; md_featurelevel := FeatureLevel item |}.

(** ** Sample data *)

Definition vimeo_1080 : fmt_dict :=
  mk_fmt (Some "mp4") (Some "http-1080p") (Some 1920)
         (Some "https://cdn.example/v1080.mp4") None.
Definition vimeo_720 : fmt_dict :=
  mk_fmt (Some "mp4") (Some "http-720p") (Some 1280)
         (Some "https://cdn.example/v720.mp4") None.
Definition vimeo_360 : fmt_dict :=
  mk_fmt (Some "mp4") (Some "http-360p") (Some 640)
         (Some "https://cdn.example/v360.mp4") None.
Definition vimeo_hls : fmt_dict :=
  mk_fmt (Some "mp4") (Some "hls-fastly-1080p") None
         (Some "https://cdn.example/master.m3u8") None.
Definition yt_dash : fmt_dict :=
  mk_fmt (Some "mp4") (Some "137") (Some 1920) None
         (Some "https://dash.example/base/").
Definition yt_direct : fmt_dict :=
  mk_fmt (Some "mp4") (Some "18") (Some 640)
         (Some "https://yt.example/videoplayback") None.

Definition sample_formats : list fmt_dict :=
  [vimeo_720; vimeo_hls; vimeo_1080; vimeo_360].

(** An engine that reports [sample_formats] for every URL and whose
    selectors yield the DASH candidate for video and the direct one for
    audio. *)
Definition sample_ytdl (_ : ytdl_opts) : YoutubeDL :=
  {| yt_extract_info := fun _ => inr (Some sample_formats);
     yt_build_format_selector := fun fmt _ =>
       if String.prefix "best" fmt then [yt_dash; yt_direct]
       else [yt_direct] |}.

Definition sample_feeds : gmap string feed_item :=
  <["abc" := mk_feed_item (Some "youtube") (Some "video") (Some "high") (Some 0)]>
  (<["vim" := mk_feed_item (Some "vimeo") (Some "video") (Some "low") (Some 1)]>
  (<["odd" := mk_feed_item (Some "vimeo") (Some "clip") (Some "medium") (Some 0)]>
  (<["dm" := mk_feed_item (Some "dailymotion") (Some "video") (Some "high") (Some 0)]>
   ∅))).

Definition sample_now : datetime := mk_datetime 2020 1 15 12 30 0.

Definition sample_world : world :=
  {| feeds_table := sample_feeds; counter_table := ∅;
     utcnow := sample_now; heap := []; trace := [] |}.

(** A world in which feed ["abc"] has used [n] requests today. *)
Definition world_with_count (n : Z) : world :=
  {| feeds_table := sample_feeds;
     counter_table :=
       {[ ("abc", 20200115) := mk_counter_item (Some n) (Some 1586953800) ]};
     utcnow := sample_now; heap := []; trace := [] |}.

Definition sample_download := download Calendar.utc_timestamp sample_ytdl.

(** A world whose heap holds the candidate list of an earlier
    extraction, and the info dict that refers to it. *)
Definition world_with_formats : world :=
  {| feeds_table := sample_feeds; counter_table := ∅;
     utcnow := sample_now; heap := [sample_formats]; trace := [] |}.

Definition sample_info : info_dict := {| info_formats := Some 0%nat |}.

Definition metadata_of_quality (quality : string) : metadata :=
  mk_metadata (Some "vimeo") (Some "video") (Some quality) (Some 0).

(** Five counter updates: three for feed ["abc"] on 2020-01-15, one for
    another feed, one on the next day. *)
Definition sample_calls : list (string * datetime) :=
  [("abc", sample_now);
   ("vim", mk_datetime 2020 1 15 12 31 0);
   ("abc", mk_datetime 2020 1 15 13 0 0);
   ("abc", mk_datetime 2020 1 16 0 0 1);
   ("abc", mk_datetime 2020 1 15 23 59 59)].

(** ** Further vocabulary *)

(** The exceptions of the engine and of the two strategies. *)
Definition engine_or_selection_exn (e : exn) : Prop :=
  match e with
  | KeyError _ | IndexError _ | StopIteration | DownloadError _ => True
  | _ => False
  end.

(** The count stored under a key, 0 when there is none. *)
Definition count_at (key : string * Z) (w : world) : Z :=
  default 0 (counter_table w !! key ≫= Count).

(** A sequence of requests for one feed, each for a video at an
    instant. *)
Fixpoint run_downloads (timestamp : datetime -> Z)
  (new_YoutubeDL : ytdl_opts -> YoutubeDL) (feed_id : string)
  (requests : list (string * datetime)) (w : world) : world :=
  match requests with
  | [] => w
  | (video_id, now) :: rest =>
      run_downloads timestamp new_YoutubeDL feed_id rest
        (snd (download timestamp new_YoutubeDL feed_id video_id (set_clock now w)))
  end.

(** What [_resolve] adds to the trace after its first line, by outcome:
    the engine call when the metadata names a provider, and the printed
    exception when it fails. *)
Definition resolve_events {A} (url : string) (metadata : metadata)
  (o : outcome A) : list event :=
  match md_provider metadata with
  | Some _ => [ExtractInfo url]
  | None => []
  end ++
  match o with
  | Returns _ => []
  | Raises e => [Print (exn_str e)]
  end.

(** A hundred requests for video ["v"], all on 2020-01-15. *)
Definition hundred_requests : list (string * datetime) :=
  replicate 100 ("v", sample_now).

(** Two candidates of the same width around a narrower one, and a world
    that holds them. *)
Definition vimeo_720_alt : fmt_dict :=
  mk_fmt (Some "mp4") (Some "http-720p-alt") (Some 1280)
         (Some "https://cdn.example/v720-alt.mp4") None.

Definition tied_formats : list fmt_dict :=
  [vimeo_720; vimeo_360; vimeo_720_alt].

Definition world_with_ties : world :=
  {| feeds_table := sample_feeds; counter_table := ∅;
     utcnow := sample_now; heap := [tied_formats]; trace := [] |}.

(** A candidate without the key ['ext']. *)
Definition no_ext : fmt_dict :=
  mk_fmt None (Some "http-240p") (Some 426)
         (Some "https://cdn.example/v240.mp4") None.

Definition world_with_no_ext : world :=
  {| feeds_table := sample_feeds; counter_table := ∅;
     utcnow := sample_now; heap := [[vimeo_720; no_ext; vimeo_360]];
     trace := [] |}.

(** * Properties *)

(** ** Strings and paths *)

Lemma rfind_lower c s : -1 <= PyStr.rfind c s.
Proof.
  induction s as [|a s IH]; simpl; [lia|].
  destruct (0 <=? PyStr.rfind c s) eqn:E; [lia|].
  destruct (Ascii.eqb a c); lia.
Qed.

Lemma rfind_upper c s : PyStr.rfind c s < Z.of_nat (String.length s).
Proof.
  induction s as [|a s IH]; simpl String.length; simpl PyStr.rfind; [lia|].
  destruct (0 <=? PyStr.rfind c s) eqn:E; [lia|].
  destruct (Ascii.eqb a c); lia.
Qed.

Lemma skip_leading_dots_steps p i n :
  OsPath.skip_leading_dots p i n = true -> (0 < n)%nat.
Proof. destruct n; simpl; [discriminate | lia]. Qed.

Lemma slice_to_nonempty p i :
  0 < i -> p <> "" -> PyStr.slice_to p i <> "".
Proof.
  intros Hi Hp. unfold PyStr.slice_to.
  destruct p as [|a p]; [congruence|].
  destruct (Z.to_nat i) eqn:E; [lia|]. simpl. discriminate.
Qed.

(** [os.path.splitext] leaves an empty root for the empty path only. *)
Lemma splitext_root_empty p : fst (OsPath.splitext p) = "" <-> p = "".
Proof.
  split; [|intros ->; reflexivity].
  unfold OsPath.splitext.
  destruct (PyStr.rfind "/" p <? PyStr.rfind "." p) eqn:Hsep; simpl; auto.
  destruct (OsPath.skip_leading_dots _ _ _) eqn:Hloop; simpl; auto.
  apply skip_leading_dots_steps in Hloop.
  pose proof (rfind_lower "/" p). pose proof (rfind_upper "." p).
  intros Hroot. exfalso. revert Hroot. apply slice_to_nonempty; [lia|].
  intros ->. simpl in *. lia.
Qed.

Lemma falsy_true s : PyStr.falsy s = true <-> s = "".
Proof. destruct s; simpl; split; congruence. Qed.

Lemma falsy_false s : PyStr.falsy s = false <-> s <> "".
Proof. destruct s; simpl; split; congruence. Qed.

Lemma format_nonempty tpl arg : tpl <> "" -> arg <> "" -> PyStr.format tpl arg <> "".
Proof.
  intros Ht Ha. destruct tpl as [|a tpl]; [congruence|].
  simpl. destruct (Ascii.eqb_spec a "{") as [->|Hne].
  - destruct tpl as [|b tpl]; [discriminate|].
    destruct (Ascii.eqb_spec b "}") as [->|Hnb].
    + destruct arg; [congruence | discriminate].
    + destruct b as [[] [] [] [] [] [] [] []]; try discriminate; congruence.
  - destruct a as [[] [] [] [] [] [] [] []]; try discriminate; congruence.
Qed.

(** The template table: two providers, and no template is empty. *)
Lemma url_formats_lookup provider tpl :
  url_formats !! provider = Some tpl ->
  (provider = "youtube" /\ tpl = "https://youtube.com/watch?v={}") \/
  (provider = "vimeo" /\ tpl = "https://vimeo.com/{}").
Proof.
  unfold url_formats. intros H.
  destruct (decide (provider = "youtube")) as [->|Hy].
  - rewrite lookup_insert_eq in H. left. split; congruence.
  - rewrite lookup_insert_ne in H by congruence.
    destruct (decide (provider = "vimeo")) as [->|Hv].
    + rewrite lookup_insert_eq in H. right. split; congruence.
    + rewrite lookup_insert_ne, lookup_empty in H by congruence. discriminate.
Qed.

Lemma url_formats_unknown provider :
  provider <> "youtube" -> provider <> "vimeo" -> url_formats !! provider = None.
Proof.
  intros Hy Hv. destruct (url_formats !! provider) eqn:E; [|reflexivity].
  apply url_formats_lookup in E. tauto.
Qed.

Example splitext_plain : OsPath.splitext "xyz123.mp4" = ("xyz123", ".mp4").
Proof. reflexivity. Qed.

Example splitext_leading_dot : OsPath.splitext ".mp4" = (".mp4", "").
Proof. reflexivity. Qed.

Example splitext_inner_dots : OsPath.splitext "a/..b.c" = ("a/..b", ".c").
Proof. reflexivity. Qed.

Example splitext_no_dot_in_last_component :
  OsPath.splitext "a.b/c" = ("a.b/c", "").
Proof. reflexivity. Qed.

Example add_months_clips_the_day :
  Calendar.add_months (mk_datetime 2023 11 30 10 0 0) 3
  = mk_datetime 2024 2 29 10 0 0.
Proof. reflexivity. Qed.

Example utc_timestamp_2020 :
  Calendar.utc_timestamp (mk_datetime 2020 1 1 0 0 0) = 1577836800.
Proof. reflexivity. Qed.

(** ** Running the monad *)

Lemma bind_run {A B} (c : M A) (k : A -> M B) w :
  bind c k w =
  match c w with
  | (Returns a, w') => k a w'
  | (Raises e, w') => (Raises e, w')
  end.
Proof. reflexivity. Qed.

Lemma bind_returns {A B} (c : M A) (k : A -> M B) w a w' :
  c w = (Returns a, w') -> bind c k w = k a w'.
Proof. intros H. unfold bind. now rewrite H. Qed.

Lemma bind_raises {A B} (c : M A) (k : A -> M B) w e w' :
  c w = (Raises e, w') -> bind c k w = (Raises e, w').
Proof. intros H. unfold bind. now rewrite H. Qed.

Lemma bind_ext {A B} (c : M A) (k k' : A -> M B) w :
  (forall a w', k a w' = k' a w') -> bind c k w = bind c k' w.
Proof.
  intros H. rewrite !bind_run. destruct (c w) as [[a|e] w']; [apply H | reflexivity].
Qed.

Lemma getitem_some {A} key (v : A) w : getitem key (Some v) w = (Returns v, w).
Proof. reflexivity. Qed.

Lemma getitem_none {A} key w : @getitem A key None w = (Raises (KeyError key), w).
Proof. reflexivity. Qed.

(** ** Which exceptions a computation raises *)

Create HintDb raises discriminated.

Lemma raises_only_ret {A} P (a : A) : raises_only P (ret a).
Proof. intros w e w' H. discriminate H. Qed.

Lemma raises_only_raise {A} (P : exn -> Prop) e : P e -> raises_only P (@raise A e).
Proof. intros HP w e' w' H. injection H as <- _. exact HP. Qed.

Lemma raises_only_bind {A B} P (c : M A) (k : A -> M B) :
  raises_only P c -> (forall a, raises_only P (k a)) -> raises_only P (bind c k).
Proof.
  intros Hc Hk w e w'. rewrite bind_run.
  destruct (c w) as [[a|e0] w0] eqn:E.
  - apply Hk.
  - intros H. injection H as <- _. eapply Hc, E.
Qed.

Lemma raises_only_weaken {A} (P Q : exn -> Prop) (c : M A) :
  (forall e, P e -> Q e) -> raises_only P c -> raises_only Q c.
Proof. intros HPQ Hc w e w' H. eapply HPQ, Hc, H. Qed.

Lemma raises_only_try_except {A} P Q (body : M A) handler :
  raises_only Q body ->
  (forall e, Q e -> raises_only P (handler e)) ->
  raises_only P (try_except body handler).
Proof.
  intros Hb Hh w e w'. unfold try_except.
  destruct (body w) as [[a|e0] w0] eqn:E; [discriminate|].
  apply Hh. eapply Hb, E.
Qed.

Lemma raises_only_getitem {A} (P : exn -> Prop) key (field : option A) :
  P (KeyError key) -> raises_only P (getitem key field).
Proof.
  intros HP. destruct field; [apply raises_only_ret | now apply raises_only_raise].
Qed.

Lemma raises_only_emit P ev : raises_only P (emit ev).
Proof. intros w e w' H. discriminate H. Qed.

Lemma raises_only_print P line : raises_only P (print line).
Proof. apply raises_only_emit. Qed.

Lemma raises_only_new_list P l : raises_only P (new_list l).
Proof. intros w e w' H. discriminate H. Qed.

Lemma raises_only_elements_of P r : raises_only P (elements_of r).
Proof. intros w e w' H. discriminate H. Qed.

Lemma raises_only_py_index {A} (P : exn -> Prop) (l : list A) i :
  P (IndexError "list index out of range") -> raises_only P (py_index l i).
Proof.
  intros HP. unfold py_index.
  destruct (_ || _); [now apply raises_only_raise|].
  destruct (l !! _); [apply raises_only_ret | now apply raises_only_raise].
Qed.

Lemma raises_only_next {A} (P : exn -> Prop) (l : list A) :
  P StopIteration -> raises_only P (next l).
Proof.
  intros HP. destruct l; [now apply raises_only_raise | apply raises_only_ret].
Qed.

Lemma raises_only_for_each {A B} P (body : A -> M B) l :
  (forall x, raises_only P (body x)) -> raises_only P (for_each body l).
Proof.
  intros Hb. induction l as [|x l IH]; simpl.
  - apply raises_only_ret.
  - apply raises_only_bind; [apply Hb|]. intros y.
    apply raises_only_bind; [apply IH|]. intros ys. apply raises_only_ret.
Qed.

Lemma raises_only_comprehension P cond l :
  (forall x, raises_only P (cond x)) -> raises_only P (comprehension cond l).
Proof.
  intros Hb. induction l as [|x l IH]; simpl.
  - apply raises_only_ret.
  - apply raises_only_bind; [apply Hb|]. intros y.
    apply raises_only_bind; [apply IH|]. intros ys. apply raises_only_ret.
Qed.

#[local] Hint Resolve raises_only_ret raises_only_emit raises_only_print
  raises_only_new_list raises_only_elements_of : raises.

(** Goals [raises_only P c] for a [c] built from the primitives. *)
Ltac raises_tac :=
  repeat first
    [ apply raises_only_bind; [|intro]
    | apply raises_only_for_each; intro
    | apply raises_only_comprehension; intro
    | solve [auto with raises]
    | apply raises_only_getitem; simpl; solve [auto]
    | apply raises_only_py_index; simpl; solve [auto]
    | apply raises_only_next; simpl; solve [auto]
    | apply raises_only_raise; simpl; solve [auto]
    | match goal with
      | |- raises_only _ (if ?b then _ else _) => destruct b
      | |- raises_only _ (match ?x with _ => _ end) => destruct x
      end ].

Lemma vimeo_keep_raises x : raises_only selection_exn (vimeo_keep x).
Proof. unfold vimeo_keep. raises_tac. Qed.

Lemma run_selector_raises ytdl fmt info :
  raises_only selection_exn (run_selector ytdl fmt info).
Proof. unfold run_selector. raises_tac. Qed.

Lemma yt_choose_url_raises ytdl info metadata :
  raises_only selection_exn (_yt_choose_url ytdl info metadata).
Proof.
  unfold _yt_choose_url. raises_tac.
Qed.

Lemma py_sorted_raises r : raises_only selection_exn (py_sorted_by_width_reverse r).
Proof. unfold py_sorted_by_width_reverse. raises_tac. Qed.

Lemma vimeo_choose_url_raises info metadata :
  raises_only selection_exn (_vimeo_choose_url info metadata).
Proof.
  unfold _vimeo_choose_url. raises_tac.
Qed.

(** ** What a computation does to the world *)

#[local] Instance allocates_only_preorder : PreOrder allocates_only.
Proof.
  split.
  - intros w. unfold allocates_only. repeat split; reflexivity.
  - intros w1 w2 w3 (F1 & C1 & U1 & T1 & H1) (F2 & C2 & U2 & T2 & H2).
    unfold allocates_only. repeat split; try congruence.
    etransitivity; eassumption.
Qed.

#[local] Instance tables_kept_preorder : PreOrder tables_kept.
Proof.
  split.
  - intros w. unfold tables_kept. repeat split; reflexivity.
  - intros w1 w2 w3 (F1 & C1 & U1 & T1 & H1) (F2 & C2 & U2 & T2 & H2).
    unfold tables_kept. repeat split; try congruence; etransitivity; eassumption.
Qed.

Lemma allocates_only_tables_kept w w' : allocates_only w w' -> tables_kept w w'.
Proof.
  intros (F & C & U & T & H). unfold tables_kept. repeat split; auto.
  rewrite T. reflexivity.
Qed.

Section Steps.

Context (R : world -> world -> Prop) `{!PreOrder R}.

Lemma steps_in_ret {A} (a : A) : steps_in R (ret a).
Proof. intros w o w' H. injection H as _ <-. reflexivity. Qed.

Lemma steps_in_raise {A} e : steps_in R (@raise A e).
Proof. intros w o w' H. injection H as _ <-. reflexivity. Qed.

Lemma steps_in_bind {A B} (c : M A) (k : A -> M B) :
  steps_in R c -> (forall a, steps_in R (k a)) -> steps_in R (bind c k).
Proof.
  intros Hc Hk w o w'. rewrite bind_run.
  destruct (c w) as [[a|e0] w0] eqn:E.
  - intros H. transitivity w0; [eapply Hc, E | eapply Hk, H].
  - intros H. injection H as _ <-. eapply Hc, E.
Qed.

Lemma steps_in_try_except {A} (body : M A) handler :
  steps_in R body -> (forall e, steps_in R (handler e)) ->
  steps_in R (try_except body handler).
Proof.
  intros Hb Hh w o w'. unfold try_except.
  destruct (body w) as [[a|e0] w0] eqn:E.
  - intros H. injection H as _ <-. eapply Hb, E.
  - intros H. transitivity w0; [eapply Hb, E | eapply Hh, H].
Qed.

Lemma steps_in_getitem {A} key (field : option A) : steps_in R (getitem key field).
Proof. destruct field; [apply steps_in_ret | apply steps_in_raise]. Qed.

Lemma steps_in_elements_of r : steps_in R (elements_of r).
Proof. intros w o w' H. injection H as _ <-. reflexivity. Qed.

Lemma steps_in_py_index {A} (l : list A) i : steps_in R (py_index l i).
Proof.
  unfold py_index. destruct (_ || _); [apply steps_in_raise|].
  destruct (l !! _); [apply steps_in_ret | apply steps_in_raise].
Qed.

Lemma steps_in_next {A} (l : list A) : steps_in R (next l).
Proof. destruct l; [apply steps_in_raise | apply steps_in_ret]. Qed.

Lemma steps_in_for_each {A B} (body : A -> M B) l :
  (forall x, steps_in R (body x)) -> steps_in R (for_each body l).
Proof.
  intros Hb. induction l as [|x l IH]; simpl.
  - apply steps_in_ret.
  - apply steps_in_bind; [apply Hb|]. intros y.
    apply steps_in_bind; [apply IH|]. intros ys. apply steps_in_ret.
Qed.

Lemma steps_in_comprehension cond l :
  (forall x, steps_in R (cond x)) -> steps_in R (comprehension cond l).
Proof.
  intros Hb. induction l as [|x l IH]; simpl.
  - apply steps_in_ret.
  - apply steps_in_bind; [apply Hb|]. intros y.
    apply steps_in_bind; [apply IH|]. intros ys. apply steps_in_ret.
Qed.

End Steps.

Lemma steps_in_weaken {A} (R S : world -> world -> Prop) (c : M A) :
  (forall w w', R w w' -> S w w') -> steps_in R c -> steps_in S c.
Proof. intros HRS Hc w o w' H. eapply HRS, Hc, H. Qed.

Lemma new_list_allocates l : steps_in allocates_only (new_list l).
Proof.
  intros w o w' H. injection H as _ <-. unfold allocates_only; simpl.
  repeat split. now apply prefix_app_r.
Qed.

Lemma emit_tables_kept ev : steps_in tables_kept (emit ev).
Proof.
  intros w o w' H. injection H as _ <-. unfold tables_kept; simpl.
  repeat split; try reflexivity. now apply prefix_app_r.
Qed.

(** Goals [steps_in R c] for a [c] built from the primitives. *)
Ltac steps_tac :=
  repeat first
    [ apply steps_in_bind; [typeclasses eauto| |intro]
    | apply steps_in_for_each; [typeclasses eauto|intro]
    | apply steps_in_comprehension; [typeclasses eauto|intro]
    | apply steps_in_ret; typeclasses eauto
    | apply steps_in_raise; typeclasses eauto
    | apply steps_in_getitem; typeclasses eauto
    | apply steps_in_elements_of; typeclasses eauto
    | apply steps_in_py_index; typeclasses eauto
    | apply steps_in_next; typeclasses eauto
    | apply new_list_allocates
    | apply emit_tables_kept
    | apply (steps_in_weaken _ _ _ allocates_only_tables_kept), new_list_allocates
    | match goal with
      | |- steps_in _ (if ?b then _ else _) => destruct b
      | |- steps_in _ (match ?x with _ => _ end) => destruct x
      end ].

Lemma yt_choose_url_allocates ytdl info metadata :
  steps_in allocates_only (_yt_choose_url ytdl info metadata).
Proof. unfold _yt_choose_url. steps_tac. Qed.

Lemma vimeo_choose_url_allocates info metadata :
  steps_in allocates_only (_vimeo_choose_url info metadata).
Proof. unfold _vimeo_choose_url. steps_tac. Qed.

Lemma extract_info_tables_kept ytdl url :
  steps_in tables_kept (extract_info ytdl url).
Proof. unfold extract_info. steps_tac. Qed.

Lemma resolve_tables_kept new_YoutubeDL url metadata :
  steps_in tables_kept (_resolve new_YoutubeDL url metadata).
Proof.
  unfold _resolve, print. steps_tac.
  apply steps_in_try_except; [typeclasses eauto| |intro]; steps_tac.
  unfold select. steps_tac.
Qed.

(** ** [download] up to the quota check *)

Section Download.

Variable timestamp : datetime -> Z.
Variable new_YoutubeDL : ytdl_opts -> YoutubeDL.

Lemma update_resolve_counter_run feed_id w :
  feed_id <> "" ->
  _update_resolve_counter timestamp feed_id w =
  (Returns (Some (new_count feed_id w)),
   {| feeds_table := feeds_table w;
      counter_table :=
        <[counter_key feed_id w := new_counter_item timestamp feed_id w]>
          (counter_table w);
      utcnow := utcnow w; heap := heap w;
      trace := trace w
               ++ [UpdateItem feed_id (Calendar.day_number (utcnow w))] |}).
Proof.
  intros Hf. apply falsy_false in Hf.
  unfold _update_resolve_counter. rewrite Hf. reflexivity.
Qed.

Lemma update_resolve_counter_empty w :
  _update_resolve_counter timestamp "" w = (Returns None, w).
Proof. reflexivity. Qed.

(** With valid identifiers and a feed that exists, [download] reads the
    metadata, updates the counter and then decides on the quota. *)
Lemma download_quota_step feed_id video_id w item :
  feed_id <> "" ->
  fst (OsPath.splitext video_id) <> "" ->
  feeds_table w !! feed_id = Some item ->
  download timestamp new_YoutubeDL feed_id video_id w =
  match FeatureLevel item with
  | None => (Raises (KeyError "featurelevel"), at_quota_check timestamp feed_id w)
  | Some level =>
      if (ANONYMOUS_FEED_REQUESTS_LIMIT <? new_count feed_id w) && (level =? 0)
      then (Raises (QuotaExceeded quota_message),
            at_quota_check timestamp feed_id w)
      else download_after_quota new_YoutubeDL (fst (OsPath.splitext video_id))
             (item_metadata item) (at_quota_check timestamp feed_id w)
  end.
Proof.
  intros Hf Hv Hitem.
  pose proof (proj2 (falsy_false _) Hf) as Hf'.
  pose proof (proj2 (falsy_false _) Hv) as Hv'.
  unfold download. rewrite Hf', Hv'.
  unfold _get_metadata, feeds_get_item.
  rewrite !bind_run. simpl. rewrite Hitem. simpl.
  rewrite (bind_returns _ _ _ _ _ (update_resolve_counter_run _ _ Hf)).
  destruct (FeatureLevel item) as [level|]; [|reflexivity].
  cbv beta iota delta [bind ret getitem count_gt raise].
  change (new_count feed_id _) with (new_count feed_id w).
  destruct ((ANONYMOUS_FEED_REQUESTS_LIMIT <? new_count feed_id w) && (level =? 0));
    reflexivity.
Qed.

End Download.

(** ** [download] after the quota check *)

Lemma raises_only_bind_ret {A B} P (a : A) (k : A -> M B) :
  raises_only P (k a) -> raises_only P (bind (ret a) k).
Proof. intros H w e w'. rewrite bind_run. simpl. apply H. Qed.

Lemma raises_only_bind_raise {A B} (P : exn -> Prop) e (k : A -> M B) :
  P e -> raises_only P (bind (raise e) k).
Proof. intros HP w e' w'. rewrite bind_run. simpl. intros H. now injection H as <- _. Qed.

Lemma resolve_exn_selection e : selection_exn e -> resolve_exn e.
Proof. destruct e; simpl; tauto. Qed.

(** With a provider it knows, [_resolve] ends with an exception of the
    engine, of the selection, or with its own 'Invalid URL'. *)
Lemma resolve_known_provider_raises new_YoutubeDL url metadata provider :
  md_provider metadata = Some provider ->
  provider = "youtube" \/ provider = "vimeo" ->
  raises_only resolve_exn (_resolve new_YoutubeDL url metadata).
Proof.
  intros Hp Hknown. unfold _resolve.
  destruct (PyStr.falsy url); [now apply raises_only_raise|].
  apply raises_only_bind; [apply raises_only_print|]. intros _.
  apply raises_only_try_except with (Q := resolve_exn).
  - rewrite Hp. apply raises_only_bind_ret.
    apply raises_only_bind.
    { unfold extract_info. raises_tac. }
    intros info.
    destruct Hknown as [-> | ->]; unfold select; simpl.
    + eapply raises_only_weaken; [apply resolve_exn_selection|].
      apply yt_choose_url_raises.
    + eapply raises_only_weaken; [apply resolve_exn_selection|].
      apply vimeo_choose_url_raises.
  - intros e He. apply raises_only_bind; [apply raises_only_print|].
    intros _. now apply raises_only_raise.
Qed.

Lemma download_after_quota_raises new_YoutubeDL video_id item :
  raises_only resolve_exn (download_after_quota new_YoutubeDL video_id item).
Proof.
  unfold download_after_quota.
  destruct (md_provider item) as [provider|] eqn:Hp;
    [|now apply raises_only_bind_raise].
  apply raises_only_bind_ret.
  destruct (url_formats !! provider) as [tpl|] eqn:Htpl;
    [|now apply raises_only_bind_raise].
  apply raises_only_bind_ret.
  apply url_formats_lookup in Htpl as Hknown.
  assert (PyStr.falsy tpl = false) as ->
    by (destruct Hknown as [[_ ->] | [_ ->]]; reflexivity).
  apply resolve_known_provider_raises with (provider := provider); [assumption|].
  tauto.
Qed.

Lemma download_after_quota_tables_kept new_YoutubeDL video_id item :
  steps_in tables_kept (download_after_quota new_YoutubeDL video_id item).
Proof.
  unfold download_after_quota. steps_tac.
  apply resolve_tables_kept.
Qed.

Lemma download_after_quota_not_quota new_YoutubeDL video_id item w :
  ~ is_QuotaExceeded (fst (download_after_quota new_YoutubeDL video_id item w)).
Proof.
  destruct (download_after_quota _ _ _ w) as [[a|e] w'] eqn:E; simpl; [tauto|].
  apply download_after_quota_raises in E. destruct e; simpl in *; tauto.
Qed.

Lemma download_counter_table timestamp new_YoutubeDL feed_id video_id w item :
  feed_id <> "" ->
  fst (OsPath.splitext video_id) <> "" ->
  feeds_table w !! feed_id = Some item ->
  counter_table (snd (download timestamp new_YoutubeDL feed_id video_id w))
  = <[counter_key feed_id w := new_counter_item timestamp feed_id w]>
      (counter_table w).
Proof.
  intros Hf Hv Hitem.
  rewrite (download_quota_step _ _ _ _ _ _ Hf Hv Hitem).
  destruct (FeatureLevel item) as [level|]; [|reflexivity].
  destruct (_ && _); [reflexivity|].
  destruct (download_after_quota _ _ _ _) as [o w'] eqn:E.
  apply download_after_quota_tables_kept in E as (_ & Hc & _).
  simpl. rewrite Hc. reflexivity.
Qed.

(** ** The quota *)

(** C1. For a feed whose feature level is 0, [download] raises
    [QuotaExceeded] exactly when the count returned by the counter update
    exceeds 100 (count 100 passes, count 101 is refused); for a feed whose
    feature level is above 0 it never raises [QuotaExceeded], whatever the
    count. *)
Theorem quota_rule timestamp new_YoutubeDL feed_id video_id w item level count :
  feed_id <> "" ->
  fst (OsPath.splitext video_id) <> "" ->
  feeds_table w !! feed_id = Some item ->
  FeatureLevel item = Some level ->
  fst (_update_resolve_counter timestamp feed_id w) = Returns (Some count) ->
  let result := fst (download timestamp new_YoutubeDL feed_id video_id w) in
  (level = 0 -> (is_QuotaExceeded result <-> 100 < count)) /\
  (0 < level -> ~ is_QuotaExceeded result).
Proof.
  intros Hf Hv Hitem Hlevel Hcount result. subst result.
  rewrite (update_resolve_counter_run _ _ _ Hf) in Hcount. simpl in Hcount.
  injection Hcount as <-.
  rewrite (download_quota_step _ _ _ _ _ _ Hf Hv Hitem), Hlevel.
  unfold ANONYMOUS_FEED_REQUESTS_LIMIT.
  split.
  - intros ->. change (0 =? 0) with true. rewrite andb_true_r.
    destruct (100 <? new_count feed_id w) eqn:Hover.
    + simpl. apply Z.ltb_lt in Hover. tauto.
    + apply Z.ltb_ge in Hover. split; [|lia].
      intros H. now apply download_after_quota_not_quota in H.
  - intros Hpos. assert ((level =? 0) = false) as -> by (apply Z.eqb_neq; lia).
    rewrite andb_false_r. apply download_after_quota_not_quota.
Qed.

Lemma quota_rule_witness :
  (is_QuotaExceeded (fst (sample_download "abc" "xyz123.mp4" (world_with_count 100)))
   <-> 100 < 101) /\
  ~ is_QuotaExceeded (fst (sample_download "vim" "xyz123.mp4" (world_with_count 100))).
Proof.
  split.
  - refine (proj1 (quota_rule Calendar.utc_timestamp sample_ytdl "abc" "xyz123.mp4"
             (world_with_count 100)
             (mk_feed_item (Some "youtube") (Some "video") (Some "high") (Some 0))
             0 101 _ _ _ _ _) _);
      [discriminate | discriminate | reflexivity | reflexivity | reflexivity
      | reflexivity].
  - refine (proj2 (quota_rule Calendar.utc_timestamp sample_ytdl "vim" "xyz123.mp4"
             (world_with_count 100)
             (mk_feed_item (Some "vimeo") (Some "video") (Some "low") (Some 1))
             1 1 _ _ _ _ _) _);
      [discriminate | discriminate | reflexivity | reflexivity | reflexivity
      | lia].
Defined.

(** C2. Whenever [download] gets as far as the quota step (valid
    identifiers, the feed exists), it leaves today's counter of the feed
    one higher than it found it and every other counter as it was,
    whatever its outcome: the update comes before the check.  So a free
    feed that had used 100 requests is refused with the counter at 101,
    and one that had used 99 is not refused. *)
Theorem counter_updated_before_quota_check
  timestamp new_YoutubeDL feed_id video_id w item :
  feed_id <> "" ->
  fst (OsPath.splitext video_id) <> "" ->
  feeds_table w !! feed_id = Some item ->
  let key := counter_key feed_id w in
  let before := default 0 (counter_table w !! key ≫= Count) in
  let run := download timestamp new_YoutubeDL feed_id video_id w in
  (counter_table (snd run) !! key ≫= Count) = Some (before + 1) /\
  (forall k, k <> key -> counter_table (snd run) !! k = counter_table w !! k) /\
  (FeatureLevel item = Some 0 -> before = 100 -> is_QuotaExceeded (fst run)) /\
  (FeatureLevel item = Some 0 -> before = 99 -> ~ is_QuotaExceeded (fst run)).
Proof.
  intros Hf Hv Hitem key before run. subst run.
  rewrite (download_counter_table _ _ _ _ _ _ Hf Hv Hitem).
  fold key. repeat split.
  - rewrite lookup_insert_eq. reflexivity.
  - intros k Hk. now rewrite lookup_insert_ne.
  - intros Hlevel Hbefore.
    rewrite (download_quota_step _ _ _ _ _ _ Hf Hv Hitem), Hlevel.
    unfold new_count. fold key. fold before. rewrite Hbefore. exact I.
  - intros Hlevel Hbefore.
    rewrite (download_quota_step _ _ _ _ _ _ Hf Hv Hitem), Hlevel.
    unfold new_count. fold key. fold before. rewrite Hbefore.
    apply download_after_quota_not_quota.
Qed.

Lemma counter_updated_before_quota_check_witness :
  (counter_table (snd (sample_download "abc" "xyz123.mp4" (world_with_count 100)))
     !! ("abc", 20200115) ≫= Count) = Some 101 /\
  is_QuotaExceeded (fst (sample_download "abc" "xyz123.mp4" (world_with_count 100))).
Proof.
  pose proof (counter_updated_before_quota_check Calendar.utc_timestamp sample_ytdl
                "abc" "xyz123.mp4" (world_with_count 100)
                (mk_feed_item (Some "youtube") (Some "video") (Some "high") (Some 0)))
    as H.
  destruct H as (Hcount & _ & Hrefused & _);
    [discriminate | discriminate | reflexivity |].
  split; [exact Hcount | apply Hrefused; reflexivity].
Defined.

(** ** The counter over a day *)

Section Counter.

Variable timestamp : datetime -> Z.

Lemma update_at_key feed_id now w :
  feed_id <> "" ->
  counter_table (snd (_update_resolve_counter timestamp feed_id (set_clock now w)))
    !! (feed_id, Calendar.day_number now)
  = Some (new_counter_item timestamp feed_id (set_clock now w)).
Proof.
  intros Hf. rewrite (update_resolve_counter_run _ _ _ Hf). simpl.
  apply lookup_insert_eq.
Qed.

Lemma update_off_key feed_id now w key :
  key <> (feed_id, Calendar.day_number now) ->
  counter_table (snd (_update_resolve_counter timestamp feed_id (set_clock now w)))
    !! key
  = counter_table w !! key.
Proof.
  intros Hk. destruct (decide (feed_id = "")) as [->|Hf]; [reflexivity|].
  rewrite (update_resolve_counter_run _ _ _ Hf). simpl.
  apply lookup_insert_ne. unfold counter_key. simpl. congruence.
Qed.

Lemma hits_cons_hit feed_id now calls :
  hits feed_id (Calendar.day_number now) ((feed_id, now) :: calls)
  = (feed_id, now) :: hits feed_id (Calendar.day_number now) calls.
Proof. unfold hits. rewrite filter_cons_True; [reflexivity | simpl; tauto]. Qed.

Lemma hits_cons_miss feed_id day f now calls :
  (feed_id, day) <> (f, Calendar.day_number now) ->
  hits feed_id day ((f, now) :: calls) = hits feed_id day calls.
Proof.
  intros Hne. unfold hits. rewrite filter_cons_False; [reflexivity|].
  simpl. intros [-> <-]. congruence.
Qed.

(** Once the item of a key exists, every update of that key adds one to
    its count and leaves its expiry alone. *)
Lemma run_updates_existing calls : forall w feed_id day count expires,
  feed_id <> "" ->
  counter_table w !! (feed_id, day) = Some (mk_counter_item (Some count) (Some expires)) ->
  counter_table (run_updates timestamp calls w) !! (feed_id, day)
  = Some (mk_counter_item
            (Some (count + Z.of_nat (length (hits feed_id day calls))))
            (Some expires)).
Proof.
  induction calls as [|[f now] calls IH]; intros w feed_id day count expires Hf Hw.
  - simpl. rewrite Hw. do 3 f_equal. lia.
  - simpl run_updates.
    destruct (decide ((feed_id, day) = (f, Calendar.day_number now))) as [E|Hne].
    + injection E as <- ->. rewrite hits_cons_hit.
      rewrite (IH _ feed_id _ (count + 1) expires Hf).
      * do 3 f_equal. simpl length. lia.
      * rewrite update_at_key by assumption.
        unfold new_counter_item, new_count, counter_key. simpl.
        rewrite Hw. simpl. reflexivity.
    + rewrite hits_cons_miss by assumption.
      apply IH; [assumption|]. rewrite update_off_key by congruence. exact Hw.
Qed.

Lemma run_updates_absent calls : forall w feed_id day,
  feed_id <> "" ->
  counter_table w !! (feed_id, day) = None ->
  match hits feed_id day calls with
  | [] => counter_table (run_updates timestamp calls w) !! (feed_id, day) = None
  | first :: rest =>
      counter_table (run_updates timestamp calls w) !! (feed_id, day)
      = Some (mk_counter_item
                (Some (Z.of_nat (length (first :: rest))))
                (Some (timestamp (Calendar.add_months first.2 3))))
  end.
Proof.
  induction calls as [|[f now] calls IH]; intros w feed_id day Hf Hw.
  - simpl. exact Hw.
  - simpl run_updates.
    destruct (decide ((feed_id, day) = (f, Calendar.day_number now))) as [E|Hne].
    + injection E as <- ->. rewrite hits_cons_hit.
      rewrite (run_updates_existing calls _ feed_id _ 1
                 (timestamp (Calendar.add_months now 3)) Hf).
      * do 3 f_equal. simpl length. lia.
      * rewrite update_at_key by assumption.
        unfold new_counter_item, new_count, counter_key. simpl.
        rewrite Hw. simpl. reflexivity.
    + rewrite hits_cons_miss by assumption.
      apply IH; [assumption|]. rewrite update_off_key by congruence. exact Hw.
Qed.

End Counter.

(** C3. Take any sequence of counter updates, for any feeds at any
    instants, from a table that has no item yet for the key (feed, day).
    If N of them are for that feed and fall on that day, the first of these
    at the instant [now1], then afterwards the item of the key has Count N
    and the Expires computed at [now1] (three months later): updates 2 to
    N did not move it. *)
Theorem counter_after_n_updates timestamp calls w feed_id day first rest :
  feed_id <> "" ->
  counter_table w !! (feed_id, day) = None ->
  hits feed_id day calls = first :: rest ->
  counter_table (run_updates timestamp calls w) !! (feed_id, day)
  = Some {| Count := Some (Z.of_nat (length (hits feed_id day calls)));
            Expires := Some (timestamp (Calendar.add_months first.2 3)) |}.
Proof.
  intros Hf Hw Hhits.
  pose proof (run_updates_absent timestamp calls w feed_id day Hf Hw) as H.
  rewrite Hhits in *. exact H.
Qed.

Lemma counter_after_n_updates_witness :
  counter_table (run_updates Calendar.utc_timestamp sample_calls sample_world)
    !! ("abc", 20200115)
  = Some {| Count := Some 3; Expires := Some 1586953800 |}.
Proof.
  apply (counter_after_n_updates Calendar.utc_timestamp sample_calls sample_world
           "abc" 20200115 ("abc", sample_now)
           [("abc", mk_datetime 2020 1 15 13 0 0);
            ("abc", mk_datetime 2020 1 15 23 59 59)]);
    [discriminate | reflexivity | reflexivity].
Defined.

(** ** Sorting by decreasing key *)

Section Sorting.

Context {A : Type}.

Lemma insert_desc_perm k (x : A) l : insert_desc k x l ≡ₚ (k, x) :: l.
Proof.
  induction l as [|[k' y] l IH]; simpl; [reflexivity|].
  destruct (k' <=? k); [reflexivity|].
  rewrite IH. apply perm_swap.
Qed.

Lemma sort_desc_perm (l : list (Z * A)) : sort_desc l ≡ₚ l.
Proof.
  induction l as [|[k x] l IH]; simpl; [reflexivity|].
  rewrite insert_desc_perm. now rewrite IH.
Qed.

Lemma insert_desc_sorted k (x : A) l :
  StronglySorted key_desc l -> StronglySorted key_desc (insert_desc k x l).
Proof.
  induction 1 as [|[k' y] l Hl IH Hall]; simpl.
  - constructor; constructor.
  - destruct (k' <=? k) eqn:E.
    + apply Z.leb_le in E. constructor; [constructor; assumption|].
      constructor; [exact E|].
      eapply Forall_impl; [exact Hall|].
      intros [k2 z]. unfold key_desc. simpl. lia.
    + apply Z.leb_gt in E. constructor; [exact IH|].
      rewrite insert_desc_perm. constructor; [|exact Hall].
      unfold key_desc. simpl. lia.
Qed.

Lemma sort_desc_sorted (l : list (Z * A)) : StronglySorted key_desc (sort_desc l).
Proof.
  induction l as [|[k x] l IH]; simpl; [constructor|].
  now apply insert_desc_sorted.
Qed.

End Sorting.

(** The list [sorted] builds from candidates keyed by their width: the
    same candidates, widest first. *)
Lemma sorted_reverse_perm (l : list fmt_dict) :
  sorted_reverse (map (fun x => (width_of x, x)) l) ≡ₚ l.
Proof.
  unfold sorted_reverse. rewrite sort_desc_perm, map_map. simpl.
  now rewrite map_id.
Qed.

Lemma sorted_reverse_sorted (l : list fmt_dict) :
  StronglySorted (fun x y => width_of y <= width_of x)
    (sorted_reverse (map (fun x => (width_of x, x)) l)).
Proof.
  unfold sorted_reverse.
  assert (Hkeys : Forall (fun p : Z * fmt_dict => p.1 = width_of p.2)
                    (sort_desc (map (fun x => (width_of x, x)) l))).
  { rewrite sort_desc_perm. apply Forall_map, Forall_forall. now intros. }
  pose proof (sort_desc_sorted (map (fun x => (width_of x, x)) l)) as Hs.
  induction Hs as [|p s Hs IH Hall]; simpl; [constructor|].
  apply Forall_cons in Hkeys as [Hp Hkeys].
  constructor; [now apply IH|].
  apply Forall_map. apply Forall_forall. intros q Hq. simpl.
  pose proof (proj1 (Forall_forall _ _) Hall q Hq) as Hle.
  pose proof (proj1 (Forall_forall _ _) Hkeys q Hq) as Hkq.
  unfold key_desc in Hle. simpl in *. lia.
Qed.

(** ** The vimeo strategy *)

Lemma elements_of_new_list l w :
  elements_of (length (heap w)) (push_list l w) = (Returns l, push_list l w).
Proof.
  unfold elements_of, push_list. simpl.
  now rewrite list_lookup_middle.
Qed.

Lemma elements_of_allocated r l w :
  heap w !! r = Some l -> elements_of r w = (Returns l, w).
Proof. intros H. unfold elements_of. now rewrite H. Qed.

Lemma py_index_first {A} (l : list A) w :
  py_index l 0 w =
  match head l with
  | Some x => (Returns x, w)
  | None => (Raises (IndexError "list index out of range"), w)
  end.
Proof.
  unfold py_index. destruct l as [|x l]; [reflexivity|].
  change (0 <? 0) with false. cbv iota.
  replace (_ || _) with false; [reflexivity|].
  symmetry. apply orb_false_iff. split; [reflexivity|].
  apply Z.leb_gt. simpl length. lia.
Qed.

Lemma py_index_last {A} (l : list A) w :
  py_index l (-1) w =
  match last l with
  | Some x => (Returns x, w)
  | None => (Raises (IndexError "list index out of range"), w)
  end.
Proof.
  unfold py_index. change (-1 <? 0) with true. cbv iota.
  destruct (last l) as [x|] eqn:Hlast.
  - assert (Hlen : (0 < length l)%nat)
      by (destruct l; [discriminate | simpl; lia]).
    replace (_ || _) with false.
    + rewrite last_lookup in Hlast.
      replace (Z.to_nat (-1 + Z.of_nat (length l))) with (pred (length l)) by lia.
      now rewrite Hlast.
    + symmetry. apply orb_false_iff. split; [apply Z.ltb_ge | apply Z.leb_gt]; lia.
  - apply last_None in Hlast. subst l. reflexivity.
Qed.

Lemma vimeo_keep_run x w :
  filter_keys x -> vimeo_keep x w = (Returns (vimeo_match x), w).
Proof.
  intros [[ext Hext] Hid]. unfold vimeo_keep, vimeo_match. rewrite Hext.
  rewrite bind_run. simpl.
  destruct (String.eqb ext "mp4") eqn:E; [|now destruct (f_format_id x)].
  apply String.eqb_eq in E. subst ext.
  destruct (Hid Hext) as [format_id ->]. reflexivity.
Qed.

Lemma comprehension_vimeo_run l w :
  Forall filter_keys l ->
  comprehension vimeo_keep l w = (Returns (filter vimeo_match l), w).
Proof.
  induction 1 as [|x l Hx Hl IH]; [reflexivity|].
  simpl comprehension.
  rewrite (bind_returns _ _ _ _ _ (vimeo_keep_run x w Hx)).
  rewrite (bind_returns _ _ _ _ _ IH).
  unfold ret. f_equal. f_equal.
  destruct (vimeo_match x) eqn:E.
  - rewrite filter_cons_True; [reflexivity | now rewrite E].
  - rewrite filter_cons_False; [reflexivity | now rewrite E].
Qed.

Lemma for_each_width_run l w :
  Forall (fun x => is_Some (f_width x)) l ->
  for_each (fun x => let! k := getitem "width" (f_width x) in ret (k, x)) l w
  = (Returns (map (fun x => (width_of x, x)) l), w).
Proof.
  induction 1 as [|x l [k Hk] Hl IH]; [reflexivity|].
  simpl for_each. rewrite bind_run, bind_run, Hk. simpl getitem.
  unfold ret at 1 2. cbv iota beta.
  rewrite (bind_returns _ _ _ _ _ IH).
  unfold ret. cbn [map]. unfold width_of at 2. now rewrite Hk.
Qed.

(** The candidates the vimeo strategy orders: those that pass the filter,
    widest first. *)
Lemma vimeo_choose_url_run info metadata w r candidates quality :
  info_formats info = Some r ->
  heap w !! r = Some candidates ->
  Forall filter_keys candidates ->
  Forall (fun x => is_Some (f_width x)) (filter vimeo_match candidates) ->
  md_quality metadata = Some quality ->
  let ordered :=
    sorted_reverse (map (fun x => (width_of x, x)) (filter vimeo_match candidates)) in
  fst (_vimeo_choose_url info metadata w)
  = picked (if String.eqb quality "high" then head ordered else last ordered).
Proof.
  intros Hinfo Hheap Hkeys Hwidths Hq ordered.
  unfold _vimeo_choose_url. rewrite Hinfo, Hq.
  rewrite bind_run. simpl getitem. unfold ret at 1. cbv iota beta.
  rewrite (bind_returns _ _ _ _ _ (elements_of_allocated _ _ _ Hheap)).
  rewrite (bind_returns _ _ _ _ _ (comprehension_vimeo_run _ _ Hkeys)).
  rewrite bind_run. unfold new_list at 1. cbv iota beta.
  unfold py_sorted_by_width_reverse.
  rewrite bind_run, bind_run, elements_of_new_list. cbv iota beta.
  rewrite (bind_returns _ _ _ _ _ (for_each_width_run _ _ Hwidths)).
  unfold new_list at 1. cbv iota beta.
  rewrite bind_run. unfold ret at 1. cbv iota beta.
  rewrite bind_run, elements_of_new_list. cbv iota beta. fold ordered.
  rewrite bind_run.
  destruct (String.eqb quality "high").
  - rewrite py_index_first. destruct (head ordered) as [x|]; [|reflexivity].
    simpl. unfold url_outcome. now destruct (f_url x).
  - rewrite py_index_last. destruct (last ordered) as [x|]; [|reflexivity].
    simpl. unfold url_outcome. now destruct (f_url x).
Qed.

Lemma vimeo_match_spec x :
  vimeo_match x = true <->
  f_ext x = Some "mp4" /\
  exists format_id,
    f_format_id x = Some format_id /\ String.prefix "http-" format_id = true.
Proof.
  unfold vimeo_match, PyStr.startswith. split.
  - destruct (f_ext x) as [ext|]; [|discriminate].
    destruct (f_format_id x) as [format_id|]; [|discriminate].
    intros H. apply andb_true_iff in H as [He Hp].
    apply String.eqb_eq in He. subst ext. eauto.
  - intros [-> (format_id & -> & Hp)]. now rewrite Hp.
Qed.

(** C4. The vimeo strategy, on candidates that carry the keys it reads:
    the candidates it orders are exactly those with extension "mp4" and a
    format id starting with "http-"; they are ordered by decreasing
    width; quality "high" gives the url of the first (widest) of them,
    quality "low" the url of the last (narrowest); and when no candidate
    passes the filter the call raises [IndexError]. *)
Theorem vimeo_strategy info metadata w r candidates quality :
  info_formats info = Some r ->
  heap w !! r = Some candidates ->
  Forall filter_keys candidates ->
  Forall (fun x => is_Some (f_width x)) (filter vimeo_match candidates) ->
  md_quality metadata = Some quality ->
  let result := fst (_vimeo_choose_url info metadata w) in
  exists ordered,
    (forall x, x ∈ ordered <->
       x ∈ candidates /\ f_ext x = Some "mp4" /\
       exists format_id,
         f_format_id x = Some format_id /\ String.prefix "http-" format_id = true) /\
    ordered ≡ₚ filter vimeo_match candidates /\
    StronglySorted (fun x y => width_of y <= width_of x) ordered /\
    (quality = "high" -> result = picked (head ordered)) /\
    (quality = "low" -> result = picked (last ordered)) /\
    (ordered = [] -> result = Raises (IndexError "list index out of range")).
Proof.
  intros Hinfo Hheap Hkeys Hwidths Hq result.
  pose proof (vimeo_choose_url_run info metadata w r candidates quality
                Hinfo Hheap Hkeys Hwidths Hq) as Hrun.
  cbv zeta in Hrun. fold result in Hrun.
  set (ordered := sorted_reverse _) in Hrun.
  exists ordered. split; [|split; [|split; [|split; [|split]]]].
  - intros x. unfold ordered.
    rewrite sorted_reverse_perm, list_elem_of_filter, Is_true_true, vimeo_match_spec.
    tauto.
  - apply sorted_reverse_perm.
  - apply sorted_reverse_sorted.
  - intros ->. exact Hrun.
  - intros ->. exact Hrun.
  - intros Hnil. rewrite Hrun, Hnil. now destruct (String.eqb quality "high").
Qed.

Lemma vimeo_strategy_witness :
  exists ordered,
    (forall x, x ∈ ordered <->
       x ∈ sample_formats /\ f_ext x = Some "mp4" /\
       exists format_id,
         f_format_id x = Some format_id /\ String.prefix "http-" format_id = true) /\
    ordered ≡ₚ filter vimeo_match sample_formats /\
    StronglySorted (fun x y => width_of y <= width_of x) ordered /\
    ("low" = "high" ->
     fst (_vimeo_choose_url sample_info (metadata_of_quality "low") world_with_formats)
     = picked (head ordered)) /\
    ("low" = "low" ->
     fst (_vimeo_choose_url sample_info (metadata_of_quality "low") world_with_formats)
     = picked (last ordered)) /\
    (ordered = [] ->
     fst (_vimeo_choose_url sample_info (metadata_of_quality "low") world_with_formats)
     = Raises (IndexError "list index out of range")).
Proof.
  apply (vimeo_strategy sample_info (metadata_of_quality "low") world_with_formats
           0%nat sample_formats "low");
    try reflexivity.
  - repeat constructor; simpl; eauto; discriminate.
  - repeat constructor; simpl; eauto.
Defined.

Example vimeo_widths_high :
  fst (_vimeo_choose_url sample_info (metadata_of_quality "high") world_with_formats)
  = Returns "https://cdn.example/v1080.mp4".
Proof. reflexivity. Qed.

Example vimeo_widths_low :
  fst (_vimeo_choose_url sample_info (metadata_of_quality "low") world_with_formats)
  = Returns "https://cdn.example/v360.mp4".
Proof. reflexivity. Qed.

(** ** The youtube strategy *)

Lemma yt_choose_url_run ytdl info metadata w r candidates format quality :
  md_format metadata = Some format ->
  md_quality metadata = Some quality ->
  info_formats info = Some r ->
  heap w !! r = Some candidates ->
  _yt_choose_url ytdl info metadata w =
  match
    yt_build_format_selector ytdl
      (yt_format_expression (String.eqb format "video") (String.eqb quality "high"))
      candidates
  with
  | [] => (Raises StopIteration, w)
  | selected :: _ =>
      match f_fragment_base_url selected with
      | Some v => (Returns v, w)
      | None => (url_outcome selected, w)
      end
  end.
Proof.
  intros Hf Hq Hinfo Hheap.
  unfold _yt_choose_url, run_selector. rewrite Hf, Hq, Hinfo.
  cbv beta iota delta [bind getitem ret elements_of]. rewrite Hheap. simpl.
  destruct (yt_build_format_selector _ _ _) as [|selected rest]; [reflexivity|].
  simpl. unfold url_outcome.
  destruct (f_fragment_base_url selected); [reflexivity|].
  simpl. now destruct (f_url selected).
Qed.

(** C5. In the youtube strategy, once the selector has yielded a
    candidate: if the candidate has the key [fragment_base_url], its value
    is the result; otherwise the result is the candidate's [url]. *)
Theorem yt_prefers_fragment_base
  ytdl info metadata w r candidates format quality selected rest :
  md_format metadata = Some format ->
  md_quality metadata = Some quality ->
  info_formats info = Some r ->
  heap w !! r = Some candidates ->
  yt_build_format_selector ytdl
    (yt_format_expression (String.eqb format "video") (String.eqb quality "high"))
    candidates = selected :: rest ->
  let result := fst (_yt_choose_url ytdl info metadata w) in
  (forall v, f_fragment_base_url selected = Some v -> result = Returns v) /\
  (f_fragment_base_url selected = None -> result = url_outcome selected).
Proof.
  intros Hf Hq Hinfo Hheap Hsel result. subst result.
  rewrite (yt_choose_url_run _ _ _ _ _ _ _ _ Hf Hq Hinfo Hheap), Hsel.
  split.
  - intros v ->. reflexivity.
  - intros ->. reflexivity.
Qed.

Lemma yt_prefers_fragment_base_witness :
  fst (_yt_choose_url (sample_ytdl opts) sample_info
         (mk_metadata (Some "youtube") (Some "video") (Some "high") (Some 0))
         world_with_formats)
  = Returns "https://dash.example/base/" /\
  fst (_yt_choose_url (sample_ytdl opts) sample_info
         (mk_metadata (Some "youtube") (Some "audio") (Some "low") (Some 0))
         world_with_formats)
  = Returns "https://yt.example/videoplayback".
Proof.
  split.
  - refine (proj1 (yt_prefers_fragment_base (sample_ytdl opts) sample_info
                     (mk_metadata (Some "youtube") (Some "video") (Some "high") (Some 0))
                     world_with_formats 0%nat sample_formats "video" "high"
                     yt_dash [yt_direct] _ _ _ _ _)
                  "https://dash.example/base/" _); reflexivity.
  - refine (proj2 (yt_prefers_fragment_base (sample_ytdl opts) sample_info
                     (mk_metadata (Some "youtube") (Some "audio") (Some "low") (Some 0))
                     world_with_formats 0%nat sample_formats "audio" "low"
                     yt_direct [] _ _ _ _ _) _); reflexivity.
Defined.

(** ** Values outside the enumerations *)

Lemma selection_not_invalid_usage {A} (c : M A) w :
  raises_only selection_exn c -> ~ is_InvalidUsage (fst (c w)).
Proof.
  intros Hc. destruct (c w) as [[a|e] w'] eqn:E; simpl; [tauto|].
  apply Hc in E. destruct e; simpl in *; tauto.
Qed.

(** C8, as the code has it.  Neither strategy checks the stored format
    or quality against an enumeration: a format other than "video" is
    handled as "audio" is, a quality other than "high" as "low" is, and
    the selection never raises [InvalidUsage]. *)
Theorem unrecognized_values_default ytdl info metadata w format quality :
  (format <> "video" ->
   _yt_choose_url ytdl info (set_format format metadata) w
   = _yt_choose_url ytdl info (set_format "audio" metadata) w) /\
  (quality <> "high" ->
   _yt_choose_url ytdl info (set_quality quality metadata) w
   = _yt_choose_url ytdl info (set_quality "low" metadata) w) /\
  (quality <> "high" ->
   _vimeo_choose_url info (set_quality quality metadata) w
   = _vimeo_choose_url info (set_quality "low" metadata) w) /\
  ~ is_InvalidUsage (fst (_yt_choose_url ytdl info metadata w)) /\
  ~ is_InvalidUsage (fst (_vimeo_choose_url info metadata w)).
Proof.
  split; [|split; [|split; [|split]]].
  - intros Hf. apply String.eqb_neq in Hf.
    unfold _yt_choose_url, set_format. simpl md_format. simpl md_quality.
    cbv beta iota delta [bind getitem ret]. rewrite Hf. reflexivity.
  - intros Hq. apply String.eqb_neq in Hq.
    unfold _yt_choose_url, set_quality. simpl md_format. simpl md_quality.
    apply bind_ext. intros f w0.
    cbv beta iota delta [bind getitem ret]. rewrite Hq. reflexivity.
  - intros Hq. apply String.eqb_neq in Hq.
    unfold _vimeo_choose_url, set_quality. simpl md_quality.
    do 5 (apply bind_ext; intros ? ?).
    cbv beta iota delta [bind getitem ret]. rewrite Hq. reflexivity.
  - apply selection_not_invalid_usage, yt_choose_url_raises.
  - apply selection_not_invalid_usage, vimeo_choose_url_raises.
Qed.

Lemma unrecognized_values_default_witness :
  _yt_choose_url (sample_ytdl opts) sample_info
    (set_format "clip" (metadata_of_quality "high")) world_with_formats
  = _yt_choose_url (sample_ytdl opts) sample_info
      (set_format "audio" (metadata_of_quality "high")) world_with_formats /\
  _vimeo_choose_url sample_info
    (set_quality "medium" (metadata_of_quality "high")) world_with_formats
  = _vimeo_choose_url sample_info
      (set_quality "low" (metadata_of_quality "high")) world_with_formats.
Proof.
  pose proof (unrecognized_values_default (sample_ytdl opts) sample_info
                (metadata_of_quality "high") world_with_formats "clip" "medium")
    as (Hformat & _ & Hquality & _).
  split; [apply Hformat | apply Hquality]; discriminate.
Defined.

(** C8, at stored values outside the enumerations: "clip" is no format
    and "medium" no quality, and both strategies return a URL for them. *)
Lemma unrecognized_values_accepted :
  "medium" <> "high" /\ "medium" <> "low" /\
  "clip" <> "video" /\ "clip" <> "audio" /\
  fst (_vimeo_choose_url sample_info
         (mk_metadata (Some "vimeo") (Some "clip") (Some "medium") (Some 0))
         world_with_formats)
  = Returns "https://cdn.example/v360.mp4" /\
  fst (_yt_choose_url (sample_ytdl opts) sample_info
         (mk_metadata (Some "youtube") (Some "clip") (Some "medium") (Some 0))
         world_with_formats)
  = Returns "https://yt.example/videoplayback" /\
  ~ is_InvalidUsage
      (fst (_vimeo_choose_url sample_info
              (mk_metadata (Some "vimeo") (Some "clip") (Some "medium") (Some 0))
              world_with_formats)) /\
  ~ is_InvalidUsage
      (fst (_yt_choose_url (sample_ytdl opts) sample_info
              (mk_metadata (Some "youtube") (Some "clip") (Some "medium") (Some 0))
              world_with_formats)).
Proof.
  repeat split; try discriminate; simpl; tauto.
Qed.

(** ** Selection is a pure read of the candidate list *)

Lemma stateless_ret {A} (a : A) : stateless (ret a).
Proof. now exists (Returns a). Qed.

Lemma stateless_raise {A} e : stateless (@raise A e).
Proof. now exists (Raises e). Qed.

Lemma stateless_getitem {A} key (field : option A) : stateless (getitem key field).
Proof. destruct field; [apply stateless_ret | apply stateless_raise]. Qed.

Lemma stateless_bind {A B} (c : M A) (k : A -> M B) :
  stateless c -> (forall a, stateless (k a)) -> stateless (bind c k).
Proof.
  intros [[a|e] Hc] Hk.
  - destruct (Hk a) as [o Ho]. exists o. intros w.
    now rewrite (bind_returns _ _ _ _ _ (Hc w)).
  - exists (Raises e). intros w. now rewrite (bind_raises _ _ _ _ _ (Hc w)).
Qed.

Lemma stateless_py_index {A} (l : list A) i : stateless (py_index l i).
Proof.
  unfold py_index. destruct (_ || _); [apply stateless_raise|].
  destruct (l !! _); [apply stateless_ret | apply stateless_raise].
Qed.

Lemma stateless_for_each {A B} (body : A -> M B) l :
  (forall x, stateless (body x)) -> stateless (for_each body l).
Proof.
  intros Hb. induction l as [|x l IH]; simpl; [apply stateless_ret|].
  apply stateless_bind; [apply Hb|]. intros y.
  apply stateless_bind; [apply IH|]. intros ys. apply stateless_ret.
Qed.

Lemma stateless_comprehension cond l :
  (forall x, stateless (cond x)) -> stateless (comprehension cond l).
Proof.
  intros Hb. induction l as [|x l IH]; simpl; [apply stateless_ret|].
  apply stateless_bind; [apply Hb|]. intros y.
  apply stateless_bind; [apply IH|]. intros ys. apply stateless_ret.
Qed.

Lemma stateless_vimeo_keep x : stateless (vimeo_keep x).
Proof.
  unfold vimeo_keep. apply stateless_bind; [apply stateless_getitem|].
  intros ext. destruct (String.eqb ext "mp4"); [|apply stateless_ret].
  apply stateless_bind; [apply stateless_getitem|]. intros. apply stateless_ret.
Qed.

(** A stateless computation in front: the rest decides. *)
Lemma bind_stateless {A B} (c : M A) (k k' : A -> M B) w w' :
  stateless c ->
  (forall a, fst (k a w) = fst (k' a w')) ->
  fst (bind c k w) = fst (bind c k' w').
Proof.
  intros [[a|e] Hc] Hk; rewrite !bind_run, !Hc; [apply Hk | reflexivity].
Qed.

(** The youtube strategy leaves the world as it is, and its result is
    decided by the elements of the candidate list. *)
Lemma yt_choose_url_world ytdl info metadata w :
  snd (_yt_choose_url ytdl info metadata w) = w.
Proof.
  assert (Hsteps : steps_in eq (_yt_choose_url ytdl info metadata))
    by (unfold _yt_choose_url, run_selector; steps_tac).
  destruct (_yt_choose_url ytdl info metadata w) as [o w'] eqn:E.
  symmetry. exact (Hsteps _ _ _ E).
Qed.

Lemma yt_choose_url_reads ytdl info metadata w w' :
  (forall r, info_formats info = Some r -> heap w !! r = heap w' !! r) ->
  fst (_yt_choose_url ytdl info metadata w)
  = fst (_yt_choose_url ytdl info metadata w').
Proof.
  intros Hsame. unfold _yt_choose_url, run_selector.
  apply bind_stateless; [apply stateless_getitem|]. intros format.
  apply bind_stateless; [apply stateless_getitem|]. intros quality.
  destruct (info_formats info) as [r|]; [|reflexivity].
  cbv beta iota delta [bind getitem ret raise elements_of].
  rewrite (Hsame r eq_refl).
  destruct (yt_build_format_selector _ _ _) as [|selected rest]; [reflexivity|].
  simpl. destruct (f_fragment_base_url selected); simpl; [reflexivity|].
  now destruct (f_url selected).
Qed.

Lemma bind_ret_run {A B} (a : A) (k : A -> M B) w : bind (ret a) k w = k a w.
Proof. reflexivity. Qed.

Lemma bind_elements_of_run {B} r (k : list fmt_dict -> M B) w :
  bind (elements_of r) k w = k (default [] (heap w !! r)) w.
Proof. reflexivity. Qed.

Lemma bind_new_list_run {B} l (k : loc -> M B) w :
  bind (new_list l) k w = k (length (heap w)) (push_list l w).
Proof. reflexivity. Qed.

Lemma elements_of_pushed l w :
  default [] (heap (push_list l w) !! length (heap w)) = l.
Proof. unfold push_list. simpl. now rewrite list_lookup_middle. Qed.

Lemma vimeo_choose_url_reads info metadata w w' :
  (forall r, info_formats info = Some r -> heap w !! r = heap w' !! r) ->
  fst (_vimeo_choose_url info metadata w)
  = fst (_vimeo_choose_url info metadata w').
Proof.
  intros Hsame. unfold _vimeo_choose_url.
  destruct (info_formats info) as [r|]; [|reflexivity].
  simpl getitem. rewrite !bind_ret_run, !bind_elements_of_run.
  rewrite (Hsame r eq_refl).
  apply bind_stateless;
    [apply stateless_comprehension, stateless_vimeo_keep|]. intros kept.
  rewrite !bind_new_list_run.
  unfold py_sorted_by_width_reverse.
  rewrite !(bind_run (bind _ _)), !bind_elements_of_run, !elements_of_pushed.
  set (keys := for_each _ kept).
  assert (Hkeys : stateless keys).
  { apply stateless_for_each. intros x.
    apply stateless_bind; [apply stateless_getitem|]. intros. apply stateless_ret. }
  destruct Hkeys as [[keyed|e] Hkeys]; rewrite !bind_run, !Hkeys; [|reflexivity].
  unfold new_list. cbv beta iota.
  apply bind_stateless; [apply stateless_getitem|]. intros quality.
  rewrite !bind_elements_of_run, !elements_of_pushed.
  apply bind_stateless.
  { destruct (String.eqb quality "high"); apply stateless_py_index. }
  intros item. now destruct (f_url item).
Qed.

Lemma select_reads provider ytdl info metadata w w' :
  (forall r, info_formats info = Some r -> heap w !! r = heap w' !! r) ->
  fst (select provider ytdl info metadata w)
  = fst (select provider ytdl info metadata w').
Proof.
  intros Hsame. unfold select.
  destruct (String.eqb provider "youtube"); [now apply yt_choose_url_reads|].
  destruct (String.eqb provider "vimeo"); [now apply vimeo_choose_url_reads|].
  reflexivity.
Qed.

Lemma select_allocates provider ytdl info metadata :
  steps_in allocates_only (select provider ytdl info metadata).
Proof. unfold select. steps_tac. Qed.

(** C9. The selection step is a function of the candidate list, the
    provider, the format and the quality: in whatever world it runs, with
    the same elements in the candidate list it gives the same outcome, so
    two runs in a row return the same URL; and it changes nothing but to
    allocate lists of its own: every list of the heap, the candidate list
    among them, has the same elements afterwards. *)
Theorem selection_deterministic provider ytdl info metadata w :
  (forall r, info_formats info = Some r -> is_Some (heap w !! r)) ->
  let run := select provider ytdl info metadata in
  (forall w',
     (forall r, info_formats info = Some r -> heap w' !! r = heap w !! r) ->
     fst (run w') = fst (run w)) /\
  fst (run (snd (run w))) = fst (run w) /\
  allocates_only w (snd (run w)) /\
  (forall r l, heap w !! r = Some l -> heap (snd (run w)) !! r = Some l).
Proof.
  intros Hvalid run.
  assert (Halloc : allocates_only w (snd (run w))).
  { destruct (run w) as [o w1] eqn:E. exact (select_allocates _ _ _ _ _ _ _ E). }
  assert (Hkept : forall r l, heap w !! r = Some l -> heap (snd (run w)) !! r = Some l).
  { intros r l Hl. destruct Halloc as (_ & _ & _ & _ & Hprefix).
    eapply prefix_lookup_Some; eassumption. }
  split; [|split; [|split]]; try assumption.
  - intros w' Hsame. now apply select_reads.
  - apply select_reads. intros r Hr.
    destruct (Hvalid r Hr) as [l Hl]. rewrite Hl. now apply Hkept.
Qed.

Lemma selection_deterministic_witness :
  fst (select "vimeo" (sample_ytdl opts) sample_info (metadata_of_quality "high")
         (snd (select "vimeo" (sample_ytdl opts) sample_info
                 (metadata_of_quality "high") world_with_formats)))
  = fst (select "vimeo" (sample_ytdl opts) sample_info (metadata_of_quality "high")
           world_with_formats) /\
  (forall r l, heap world_with_formats !! r = Some l ->
     heap (snd (select "vimeo" (sample_ytdl opts) sample_info
                  (metadata_of_quality "high") world_with_formats)) !! r = Some l).
Proof.
  pose proof (selection_deterministic "vimeo" (sample_ytdl opts) sample_info
                (metadata_of_quality "high") world_with_formats) as H.
  destruct H as (_ & Hagain & _ & Hkept).
  - intros r Hr. injection Hr as <-. eexists. reflexivity.
  - split; [exact Hagain | exact Hkept].
Defined.

(** ** Invalid requests and unknown providers *)

Section Entry.

Variable timestamp : datetime -> Z.
Variable new_YoutubeDL : ytdl_opts -> YoutubeDL.

Lemma download_empty_feed video_id w :
  download timestamp new_YoutubeDL "" video_id w
  = (Raises (InvalidUsage "Invalid feed id"), w).
Proof. reflexivity. Qed.

Lemma download_empty_video feed_id video_id w :
  feed_id <> "" ->
  fst (OsPath.splitext video_id) = "" ->
  download timestamp new_YoutubeDL feed_id video_id w
  = (Raises (InvalidUsage "Invalid video id"), w).
Proof.
  intros Hf Hv. apply falsy_false in Hf.
  unfold download. rewrite Hf, Hv. reflexivity.
Qed.

Lemma download_no_feed feed_id video_id w :
  feed_id <> "" ->
  fst (OsPath.splitext video_id) <> "" ->
  feeds_table w !! feed_id = None ->
  fst (download timestamp new_YoutubeDL feed_id video_id w)
  = Raises (KeyError "Item").
Proof.
  intros Hf Hv Hnone. apply falsy_false in Hf. apply falsy_false in Hv.
  unfold download. rewrite Hf, Hv.
  unfold _get_metadata, feeds_get_item.
  cbv beta iota delta [bind emit]. simpl feeds_table. rewrite Hnone. reflexivity.
Qed.

Lemma download_raises feed_id video_id :
  raises_only download_exn (download timestamp new_YoutubeDL feed_id video_id).
Proof.
  intros w e w' H.
  destruct (decide (feed_id = "")) as [->|Hf].
  { rewrite download_empty_feed in H. injection H as <- _. simpl. tauto. }
  destruct (decide (fst (OsPath.splitext video_id) = "")) as [Hv|Hv].
  { rewrite download_empty_video in H by assumption.
    injection H as <- _. simpl. tauto. }
  destruct (feeds_table w !! feed_id) as [item|] eqn:Hitem.
  - rewrite (download_quota_step _ _ _ _ _ _ Hf Hv Hitem) in H.
    destruct (FeatureLevel item) as [level|];
      [|injection H as <- _; exact I].
    destruct (_ && _); [injection H as <- _; exact I|].
    apply download_after_quota_raises in H.
    destruct e; simpl in *; tauto.
  - pose proof (download_no_feed _ video_id _ Hf Hv Hitem) as Hk.
    rewrite H in Hk. simpl in Hk. injection Hk as ->. exact I.
Qed.

(** For a provider outside the template table the lookup itself raises:
    [KeyError], with the metadata read and the counter updated, and no
    call to the engine. *)
Lemma download_unknown_provider feed_id video_id w item provider :
  feed_id <> "" ->
  fst (OsPath.splitext video_id) <> "" ->
  feeds_table w !! feed_id = Some item ->
  FeatureLevel item <> None ->
  ~ is_QuotaExceeded (fst (download timestamp new_YoutubeDL feed_id video_id w)) ->
  Provider item = Some provider ->
  provider <> "youtube" -> provider <> "vimeo" ->
  download timestamp new_YoutubeDL feed_id video_id w
  = (Raises (KeyError provider), at_quota_check timestamp feed_id w).
Proof.
  intros Hf Hv Hitem Hlevel Hquota Hp Hy Hvi. revert Hquota.
  rewrite (download_quota_step _ _ _ _ _ _ Hf Hv Hitem).
  destruct (FeatureLevel item) as [level|]; [|congruence].
  destruct (_ && _); [simpl; tauto|]. intros _.
  unfold download_after_quota. simpl md_provider. rewrite Hp.
  simpl getitem. rewrite bind_ret_run, (url_formats_unknown _ Hy Hvi).
  reflexivity.
Qed.

End Entry.

(** C10. Two [raise] statements are dead on every path through
    [download]: no template of the table is empty, so the test
    [if not tpl] never holds, and [download] never ends with
    [InvalidUsage('Invalid feed')]; and [download] never ends with the
    [ValueError('undefined provider')] of [_resolve], which it reaches
    only with a provider of the table. *)
Theorem unreachable_error_branches timestamp new_YoutubeDL feed_id video_id w :
  (forall provider tpl,
     url_formats !! provider = Some tpl -> PyStr.falsy tpl = false) /\
  fst (download timestamp new_YoutubeDL feed_id video_id w)
    <> Raises (InvalidUsage "Invalid feed") /\
  fst (download timestamp new_YoutubeDL feed_id video_id w)
    <> Raises (ValueError "undefined provider").
Proof.
  split; [|split].
  - intros provider tpl H.
    apply url_formats_lookup in H as [[_ ->] | [_ ->]]; reflexivity.
  - destruct (download _ _ _ _ w) as [[u|e] w'] eqn:E; simpl; [discriminate|].
    apply download_raises in E. intros H. injection H as ->.
    simpl in E. destruct E as [E | [E | E]]; discriminate.
  - destruct (download _ _ _ _ w) as [[u|e] w'] eqn:E; simpl; [discriminate|].
    apply download_raises in E. intros H. injection H as ->. exact E.
Qed.

(** C6, at a feed whose stored provider is "dailymotion": [download]
    ends with the [KeyError] of the template lookup, not with
    [InvalidUsage]; the engine is not called. *)
Theorem unknown_provider_key_error :
  fst (sample_download "dm" "xyz123.mp4" sample_world)
  = Raises (KeyError "dailymotion") /\
  trace (snd (sample_download "dm" "xyz123.mp4" sample_world))
  = [GetItem "dm"; UpdateItem "dm" 20200115].
Proof. split; reflexivity. Qed.

(** The part of the validation that works.  With an empty feed id, or a
    video id whose root is empty once [os.path.splitext] has removed the
    extension, [download] raises [InvalidUsage] and leaves the world
    exactly as it was: no store is read or written.  But the root is
    empty for the empty video id only, so the check after the strip
    catches nothing that a check before it would not. *)
Theorem invalid_identifiers_fail_first
  timestamp new_YoutubeDL feed_id video_id w :
  feed_id = "" \/ fst (OsPath.splitext video_id) = "" ->
  let run := download timestamp new_YoutubeDL feed_id video_id w in
  is_InvalidUsage (fst run) /\ snd run = w /\
  (fst (OsPath.splitext video_id) = "" <-> video_id = "").
Proof.
  intros Hbad run. subst run.
  split; [|split]; [| |apply splitext_root_empty].
  - destruct (decide (feed_id = "")) as [->|Hf]; [exact I|].
    destruct Hbad as [Hbad|Hbad]; [congruence|].
    now rewrite download_empty_video.
  - destruct (decide (feed_id = "")) as [->|Hf]; [reflexivity|].
    destruct Hbad as [Hbad|Hbad]; [congruence|].
    now rewrite download_empty_video.
Qed.

Lemma invalid_identifiers_fail_first_witness :
  is_InvalidUsage (fst (sample_download "abc" "" sample_world)) /\
  snd (sample_download "abc" "" sample_world) = sample_world /\
  (fst (OsPath.splitext "") = "" <-> "" = "").
Proof.
  apply (invalid_identifiers_fail_first Calendar.utc_timestamp sample_ytdl
           "abc" "" sample_world).
  right. reflexivity.
Defined.

(** C7, at the video id ".mp4", which is an extension and nothing else.
    [download] strips the extension and then checks that an id is left
    (lines 43 to 46), and stripping from the last dot leaves none; but
    [os.path.splitext] takes a leading dot for part of the root and keeps
    ".mp4" whole, so the check passes: [download] does not raise
    [InvalidUsage], it reads the metadata, updates the counter and calls
    the engine with [https://youtube.com/watch?v=.mp4]. *)
Lemma dot_mp4_is_resolved :
  spec_strip_suffix ".mp4" = "" /\
  fst (OsPath.splitext ".mp4") = ".mp4" /\
  ~ is_InvalidUsage (fst (sample_download "abc" ".mp4" sample_world)) /\
  trace (snd (sample_download "abc" ".mp4" sample_world))
  = [GetItem "abc"; UpdateItem "abc" 20200115;
     Print "Resolving https://youtube.com/watch?v=.mp4";
     ExtractInfo "https://youtube.com/watch?v=.mp4"].
Proof.
  split; [reflexivity|]. split; [reflexivity|]. split; [|reflexivity].
  simpl. tauto.
Qed.

(** ** The scenario of the specification

    Feed "abc" (youtube, video, high, level 0), video "xyz123.mp4", first
    request of the day: the extension is dropped, the canonical URL goes
    to the engine, the youtube strategy selects. *)

Example end_to_end :
  fst (sample_download "abc" "xyz123.mp4" sample_world)
  = Returns "https://dash.example/base/" /\
  trace (snd (sample_download "abc" "xyz123.mp4" sample_world))
  = [GetItem "abc"; UpdateItem "abc" 20200115;
     Print "Resolving https://youtube.com/watch?v=xyz123";
     ExtractInfo "https://youtube.com/watch?v=xyz123"] /\
  counter_table (snd (sample_download "abc" "xyz123.mp4" sample_world))
    !! ("abc", 20200115)
  = Some {| Count := Some 1; Expires := Some 1586953800 |}.
Proof. repeat split; reflexivity. Qed.

Example hundredth_request_passes :
  fst (sample_download "abc" "xyz123.mp4" (world_with_count 99))
  = Returns "https://dash.example/base/".
Proof. reflexivity. Qed.

Example hundred_and_first_request_refused :
  fst (sample_download "abc" "xyz123.mp4" (world_with_count 100))
  = Raises (QuotaExceeded
              "Too many requests. Daily limit is 100. Consider upgrading account to get unlimited access").
Proof. reflexivity. Qed.

Example missing_feed :
  fst (sample_download "nofeed" "xyz123.mp4" sample_world) = Raises (KeyError "Item").
Proof. reflexivity. Qed.

(** * Further properties of the resolver *)

(** ** What [download] touches *)

Section Footprint.

Variable timestamp : datetime -> Z.
Variable new_YoutubeDL : ytdl_opts -> YoutubeDL.

Lemma download_no_feed_run feed_id video_id w :
  feed_id <> "" ->
  fst (OsPath.splitext video_id) <> "" ->
  feeds_table w !! feed_id = None ->
  download timestamp new_YoutubeDL feed_id video_id w
  = (Raises (KeyError "Item"), snd (emit (GetItem feed_id) w)).
Proof.
  intros Hf Hv Hnone. apply falsy_false in Hf. apply falsy_false in Hv.
  unfold download. rewrite Hf, Hv.
  unfold _get_metadata, feeds_get_item.
  cbv beta iota delta [bind emit]. simpl feeds_table. rewrite Hnone. reflexivity.
Qed.

Lemma at_quota_check_tables_kept feed_id w w' :
  tables_kept (at_quota_check timestamp feed_id w) w' ->
  feeds_table w' = feeds_table w /\
  counter_table w'
  = <[counter_key feed_id w := new_counter_item timestamp feed_id w]>
      (counter_table w) /\
  utcnow w' = utcnow w /\
  trace w `prefix_of` trace w' /\
  heap w `prefix_of` heap w'.
Proof.
  intros (Hfeeds & Hcounters & Hnow & Htrace & Hheap). simpl in *.
  repeat split; try assumption.
  etransitivity; [|exact Htrace].
  rewrite <- app_assoc. now apply prefix_app_r.
Qed.

(** The three ways a run of [download] goes, and the world each leaves. *)
Lemma download_world feed_id video_id w :
  let run := download timestamp new_YoutubeDL feed_id video_id w in
  snd run = w \/
  (feeds_table w !! feed_id = None /\ snd run = snd (emit (GetItem feed_id) w)) \/
  (feed_id <> "" /\ fst (OsPath.splitext video_id) <> "" /\
   is_Some (feeds_table w !! feed_id) /\
   tables_kept (at_quota_check timestamp feed_id w) (snd run)).
Proof.
  intros run. subst run.
  destruct (decide (feed_id = "")) as [->|Hf]; [now left|].
  destruct (decide (fst (OsPath.splitext video_id) = "")) as [Hv|Hv].
  { left. now rewrite download_empty_video. }
  destruct (feeds_table w !! feed_id) as [item|] eqn:Hitem.
  - right. right. split; [assumption|]. split; [assumption|].
    split; [eauto|].
    rewrite (download_quota_step _ _ _ _ _ _ Hf Hv Hitem).
    destruct (FeatureLevel item) as [level|]; [|reflexivity].
    destruct (_ && _); [reflexivity|].
    destruct (download_after_quota _ _ _ _) as [o w'] eqn:E.
    exact (download_after_quota_tables_kept _ _ _ _ _ _ E).
  - right. left. split; [reflexivity|].
    now rewrite (download_no_feed_run _ _ _ Hf Hv Hitem).
Qed.

Lemma download_counter_cases feed_id video_id w :
  let run := download timestamp new_YoutubeDL feed_id video_id w in
  counter_table (snd run) = counter_table w \/
  counter_table (snd run)
  = <[counter_key feed_id w := new_counter_item timestamp feed_id w]>
      (counter_table w).
Proof.
  intros run.
  destruct (download_world feed_id video_id w) as [H | [[_ H] | (_ & _ & _ & H)]];
    fold run in H.
  - left. now rewrite H.
  - left. now rewrite H.
  - right. now destruct H as (_ & -> & _).
Qed.

Lemma download_feeds_table feed_id video_id w :
  feeds_table (snd (download timestamp new_YoutubeDL feed_id video_id w))
  = feeds_table w.
Proof.
  destruct (download_world feed_id video_id w) as [H | [[_ H] | (_ & _ & _ & H)]].
  - now rewrite H.
  - now rewrite H.
  - now destruct H as (-> & _).
Qed.

Lemma download_utcnow feed_id video_id w :
  utcnow (snd (download timestamp new_YoutubeDL feed_id video_id w)) = utcnow w.
Proof.
  destruct (download_world feed_id video_id w) as [H | [[_ H] | (_ & _ & _ & H)]].
  - now rewrite H.
  - now rewrite H.
  - now destruct H as (_ & _ & -> & _).
Qed.

End Footprint.

(** X1. A request for a feed that the Feeds table does not hold ends
    with [KeyError('Item')] after the one read of the table: the counter
    table and the heap are as before and the trace has the read and
    nothing else, so the request is not counted and the engine is not
    called. *)
Theorem unknown_feed_not_counted timestamp new_YoutubeDL feed_id video_id w :
  feed_id <> "" ->
  video_id <> "" ->
  feeds_table w !! feed_id = None ->
  let run := download timestamp new_YoutubeDL feed_id video_id w in
  fst run = Raises (KeyError "Item") /\
  counter_table (snd run) = counter_table w /\
  heap (snd run) = heap w /\
  trace (snd run) = (trace w ++ [GetItem feed_id])%list.
Proof.
  intros Hf Hv Hnone run. subst run.
  assert (Hroot : fst (OsPath.splitext video_id) <> "")
    by (now rewrite splitext_root_empty).
  rewrite (download_no_feed_run _ _ _ _ _ Hf Hroot Hnone).
  repeat split.
Qed.

Lemma unknown_feed_not_counted_witness :
  fst (sample_download "nofeed" "xyz123.mp4" sample_world) = Raises (KeyError "Item") /\
  counter_table (snd (sample_download "nofeed" "xyz123.mp4" sample_world))
  = counter_table sample_world /\
  heap (snd (sample_download "nofeed" "xyz123.mp4" sample_world)) = heap sample_world /\
  trace (snd (sample_download "nofeed" "xyz123.mp4" sample_world))
  = (trace sample_world ++ [GetItem "nofeed"])%list.
Proof.
  apply (unknown_feed_not_counted Calendar.utc_timestamp sample_ytdl
           "nofeed" "xyz123.mp4" sample_world);
    [discriminate | discriminate | reflexivity].
Defined.

(** X2. Whatever its arguments and its outcome, [download] never writes
    the Feeds table or the clock, changes no counter but today's counter
    of the feed it was called for, and only extends the heap and the
    trace. *)
Theorem download_footprint timestamp new_YoutubeDL feed_id video_id w :
  let w' := snd (download timestamp new_YoutubeDL feed_id video_id w) in
  feeds_table w' = feeds_table w /\
  utcnow w' = utcnow w /\
  (forall key, key <> counter_key feed_id w ->
     counter_table w' !! key = counter_table w !! key) /\
  heap w `prefix_of` heap w' /\
  trace w `prefix_of` trace w'.
Proof.
  intros w'. subst w'.
  split; [apply download_feeds_table|]. split; [apply download_utcnow|].
  split.
  - intros key Hkey.
    destruct (download_counter_cases timestamp new_YoutubeDL feed_id video_id w)
      as [-> | ->]; [reflexivity|].
    now apply lookup_insert_ne.
  - destruct (download_world timestamp new_YoutubeDL feed_id video_id w)
      as [H | [[_ H] | (_ & _ & _ & H)]].
    + rewrite H. split; reflexivity.
    + rewrite H. simpl. split; [reflexivity | now apply prefix_app_r].
    + apply at_quota_check_tables_kept in H as (_ & _ & _ & Ht & Hh).
      split; assumption.
Qed.

(** X3. [download] never removes a counter item, never changes an
    [Expires] that is set, and moves a [Count] by one at most, upwards:
    an item of the counter table before the run is still there after it,
    with the same [Expires] and the same [Count] or one more. *)
Theorem counters_only_grow timestamp new_YoutubeDL feed_id video_id w key item :
  counter_table w !! key = Some item ->
  let w' := snd (download timestamp new_YoutubeDL feed_id video_id w) in
  exists item',
    counter_table w' !! key = Some item' /\
    (forall e, Expires item = Some e -> Expires item' = Some e) /\
    (forall c, Count item = Some c ->
       Count item' = Some c \/ Count item' = Some (c + 1)).
Proof.
  intros Hitem w'. subst w'.
  destruct (download_counter_cases timestamp new_YoutubeDL feed_id video_id w)
    as [-> | ->].
  - exists item. repeat split; auto.
  - destruct (decide (key = counter_key feed_id w)) as [->|Hne].
    + rewrite lookup_insert_eq. eexists. split; [reflexivity|].
      unfold new_counter_item, new_count. rewrite Hitem. simpl. split.
      * intros e ->. reflexivity.
      * intros c ->. now right.
    + rewrite lookup_insert_ne by congruence.
      exists item. repeat split; auto.
Qed.

Lemma counters_only_grow_witness :
  exists item',
    counter_table (snd (sample_download "abc" "xyz123.mp4" (world_with_count 7)))
      !! ("abc", 20200115) = Some item' /\
    (forall e, Some 1586953800 = Some e -> Expires item' = Some e) /\
    (forall c, Some 7 = Some c ->
       Count item' = Some c \/ Count item' = Some (c + 1)).
Proof.
  apply (counters_only_grow Calendar.utc_timestamp sample_ytdl "abc" "xyz123.mp4"
           (world_with_count 7) ("abc", 20200115)
           (mk_counter_item (Some 7) (Some 1586953800))).
  reflexivity.
Defined.

(** X4. The contract of [_update_resolve_counter].  For an empty feed id
    it returns [None] and does nothing.  Otherwise it returns the count
    it has just stored under today's key of the feed, which is the count
    it found (0 when there was none) plus one; the [Expires] under the
    key is the one it found, or three months from now when there was
    none; one [UpdateItem] is traced and no other key, table or list
    changes. *)
Theorem update_resolve_counter_contract timestamp feed_id w :
  let key := counter_key feed_id w in
  let run := _update_resolve_counter timestamp feed_id w in
  (feed_id = "" -> run = (Returns None, w)) /\
  (feed_id <> "" ->
   fst run = Returns (Some (count_at key w + 1)) /\
   (counter_table (snd run) !! key ≫= Count) = Some (count_at key w + 1) /\
   (counter_table (snd run) !! key ≫= Expires)
   = Some (default (timestamp (Calendar.add_months (utcnow w) 3))
                   (counter_table w !! key ≫= Expires)) /\
   (forall k, k <> key -> counter_table (snd run) !! k = counter_table w !! k) /\
   feeds_table (snd run) = feeds_table w /\
   heap (snd run) = heap w /\
   trace (snd run) = (trace w ++ [UpdateItem feed_id key.2])%list).
Proof.
  intros key run. subst run. split.
  - intros ->. reflexivity.
  - intros Hf. rewrite (update_resolve_counter_run _ _ _ Hf). simpl.
    fold key. rewrite lookup_insert_eq. repeat split.
    intros k Hk. now apply lookup_insert_ne.
Qed.

Lemma update_resolve_counter_contract_witness :
  fst (_update_resolve_counter Calendar.utc_timestamp "abc" (world_with_count 7))
  = Returns (Some (count_at ("abc", 20200115) (world_with_count 7) + 1)) /\
  _update_resolve_counter Calendar.utc_timestamp "" sample_world
  = (Returns None, sample_world).
Proof.
  split.
  - apply (update_resolve_counter_contract Calendar.utc_timestamp "abc"
             (world_with_count 7)). discriminate.
  - apply (update_resolve_counter_contract Calendar.utc_timestamp ""
             sample_world). reflexivity.
Defined.

(** X5. [download] raises [QuotaExceeded] only for a feed of feature
    level 0 whose count after the update exceeds 100, and then it stops
    at the quota check: it has read the metadata and updated the counter,
    it has printed nothing, allocated nothing and not called the
    engine. *)
Theorem quota_refusal_skips_engine timestamp new_YoutubeDL feed_id video_id w :
  let run := download timestamp new_YoutubeDL feed_id video_id w in
  is_QuotaExceeded (fst run) ->
  (exists item,
     feeds_table w !! feed_id = Some item /\ FeatureLevel item = Some 0 /\
     100 < new_count feed_id w) /\
  heap (snd run) = heap w /\
  trace (snd run)
  = (trace w ++ [GetItem feed_id;
                 UpdateItem feed_id (Calendar.day_number (utcnow w))])%list.
Proof.
  intros run Hq. subst run.
  destruct (decide (feed_id = "")) as [->|Hf]; [destruct Hq|].
  destruct (decide (fst (OsPath.splitext video_id) = "")) as [Hv|Hv].
  { rewrite download_empty_video in Hq by assumption. destruct Hq. }
  destruct (feeds_table w !! feed_id) as [item|] eqn:Hitem.
  2:{ rewrite (download_no_feed_run _ _ _ _ _ Hf Hv Hitem) in Hq. destruct Hq. }
  revert Hq. rewrite (download_quota_step _ _ _ _ _ _ Hf Hv Hitem).
  destruct (FeatureLevel item) as [level|] eqn:Hlevel; [|intros []].
  destruct (_ && _) eqn:Hover.
  - intros _. apply andb_true_iff in Hover as [Hgt Hzero].
    apply Z.ltb_lt in Hgt. apply Z.eqb_eq in Hzero. subst level.
    split; [exists item; auto|]. split; [reflexivity|].
    simpl. now rewrite <- app_assoc.
  - intros Hq. now apply download_after_quota_not_quota in Hq.
Qed.

Lemma quota_refusal_skips_engine_witness :
  (exists item,
     feeds_table (world_with_count 100) !! "abc" = Some item /\
     FeatureLevel item = Some 0 /\
     100 < new_count "abc" (world_with_count 100)) /\
  heap (snd (sample_download "abc" "xyz123.mp4" (world_with_count 100)))
  = heap (world_with_count 100) /\
  trace (snd (sample_download "abc" "xyz123.mp4" (world_with_count 100)))
  = (trace (world_with_count 100)
     ++ [GetItem "abc";
         UpdateItem "abc" (Calendar.day_number (utcnow (world_with_count 100)))])%list.
Proof.
  apply (quota_refusal_skips_engine Calendar.utc_timestamp sample_ytdl
           "abc" "xyz123.mp4" (world_with_count 100)).
  exact I.
Defined.

(** ** A day of requests *)

Section Day.

Variable timestamp : datetime -> Z.
Variable new_YoutubeDL : ytdl_opts -> YoutubeDL.

Lemma download_counts_once feed_id video_id w :
  feed_id <> "" ->
  video_id <> "" ->
  is_Some (feeds_table w !! feed_id) ->
  count_at (counter_key feed_id w)
    (snd (download timestamp new_YoutubeDL feed_id video_id w))
  = count_at (counter_key feed_id w) w + 1.
Proof.
  intros Hf Hv [item Hitem].
  assert (Hroot : fst (OsPath.splitext video_id) <> "")
    by (now rewrite splitext_root_empty).
  unfold count_at.
  rewrite (download_counter_table _ _ _ _ _ _ Hf Hroot Hitem), lookup_insert_eq.
  reflexivity.
Qed.

Lemma run_downloads_feeds_table feed_id requests : forall w,
  feeds_table (run_downloads timestamp new_YoutubeDL feed_id requests w)
  = feeds_table w.
Proof.
  induction requests as [|[video_id now] rest IH]; intros w; [reflexivity|].
  simpl. rewrite IH, download_feeds_table. reflexivity.
Qed.

Lemma run_downloads_count feed_id day requests : forall w,
  feed_id <> "" ->
  is_Some (feeds_table w !! feed_id) ->
  Forall (fun r => r.1 <> "" /\ Calendar.day_number r.2 = day) requests ->
  count_at (feed_id, day) (run_downloads timestamp new_YoutubeDL feed_id requests w)
  = count_at (feed_id, day) w + Z.of_nat (length requests).
Proof.
  induction requests as [|[video_id now] rest IH]; intros w Hf Hfeed Hall.
  - simpl. lia.
  - apply Forall_cons in Hall as [[Hv Hday] Hall]. simpl in Hv, Hday.
    simpl run_downloads. rewrite IH; [|assumption| |assumption].
    + pose proof (download_counts_once feed_id video_id (set_clock now w) Hf Hv Hfeed)
        as Hone.
      unfold counter_key in Hone. simpl utcnow in Hone. rewrite Hday in Hone.
      rewrite Hone. unfold count_at. simpl. simpl length. lia.
    + rewrite download_feeds_table. exact Hfeed.
Qed.

End Day.

(** X6. A feed of feature level 0 gets a hundred requests a day.  After
    any number of requests for the feed on one day, answered or refused,
    the next request of that day is refused with [QuotaExceeded] exactly
    when the count the day started with plus the number of those requests
    has reached 100. *)
Theorem hundred_requests_a_day
  timestamp new_YoutubeDL feed_id item day requests video_id now w :
  feed_id <> "" ->
  feeds_table w !! feed_id = Some item ->
  FeatureLevel item = Some 0 ->
  Forall (fun r => r.1 <> "" /\ Calendar.day_number r.2 = day) requests ->
  video_id <> "" ->
  Calendar.day_number now = day ->
  let w' := run_downloads timestamp new_YoutubeDL feed_id requests w in
  is_QuotaExceeded
    (fst (download timestamp new_YoutubeDL feed_id video_id (set_clock now w')))
  <-> 100 <= count_at (feed_id, day) w + Z.of_nat (length requests).
Proof.
  intros Hf Hitem Hlevel Hall Hv Hday w'.
  assert (Hroot : fst (OsPath.splitext video_id) <> "")
    by (now rewrite splitext_root_empty).
  assert (Hitem' : feeds_table (set_clock now w') !! feed_id = Some item).
  { simpl. unfold w'. now rewrite run_downloads_feeds_table. }
  rewrite (download_quota_step _ _ _ _ _ _ Hf Hroot Hitem'), Hlevel.
  assert (Hcount : new_count feed_id (set_clock now w')
                   = count_at (feed_id, day) w + Z.of_nat (length requests) + 1).
  { unfold new_count, counter_key. simpl utcnow. rewrite Hday.
    change (default 0 (counter_table (set_clock now w') !! (feed_id, day) ≫= Count))
      with (count_at (feed_id, day) w').
    unfold w'.
    rewrite (run_downloads_count _ _ _ _ _ w Hf (mk_is_Some _ _ Hitem) Hall).
    reflexivity. }
  rewrite Hcount. unfold ANONYMOUS_FEED_REQUESTS_LIMIT.
  change (0 =? 0) with true. rewrite andb_true_r.
  destruct (100 <? _) eqn:Hover.
  - apply Z.ltb_lt in Hover. simpl. split; [lia | tauto].
  - apply Z.ltb_ge in Hover. split; [|lia].
    intros H. now apply download_after_quota_not_quota in H.
Qed.

Lemma hundred_requests_a_day_witness :
  is_QuotaExceeded
    (fst (sample_download "abc" "xyz123.mp4"
            (set_clock sample_now
               (run_downloads Calendar.utc_timestamp sample_ytdl "abc"
                  hundred_requests sample_world))))
  <-> 100 <= count_at ("abc", 20200115) sample_world
             + Z.of_nat (length hundred_requests).
Proof.
  apply (hundred_requests_a_day Calendar.utc_timestamp sample_ytdl "abc"
           (mk_feed_item (Some "youtube") (Some "video") (Some "high") (Some 0))
           20200115 hundred_requests "xyz123.mp4" sample_now sample_world);
    try reflexivity; try discriminate.
  apply Forall_replicate. split; [discriminate | reflexivity].
Defined.

(** ** What [_resolve] logs and raises *)

Section Resolve.

Variable new_YoutubeDL : ytdl_opts -> YoutubeDL.

Lemma extract_info_trace ytdl url w o w' :
  extract_info ytdl url w = (o, w') ->
  trace w' = (trace w ++ [ExtractInfo url])%list.
Proof.
  unfold extract_info.
  cbv beta iota delta [bind emit new_list ret raise push_list].
  destruct (yt_extract_info ytdl url) as [msg|[l|]]; intros H;
    injection H as _ <-; reflexivity.
Qed.

Lemma select_trace provider ytdl info metadata w o w' :
  select provider ytdl info metadata w = (o, w') -> trace w' = trace w.
Proof. intros H. now apply select_allocates in H as (_ & _ & _ & Ht & _). Qed.

Lemma resolve_body_trace ytdl url provider metadata w o w' :
  bind (extract_info ytdl url)
       (fun info => select provider ytdl info metadata) w = (o, w') ->
  trace w' = (trace w ++ [ExtractInfo url])%list.
Proof.
  rewrite bind_run.
  destruct (extract_info ytdl url w) as [[info|e] w1] eqn:E; intros H.
  - apply select_trace in H. rewrite H. exact (extract_info_trace _ _ _ _ _ E).
  - injection H as _ <-. exact (extract_info_trace _ _ _ _ _ E).
Qed.

Lemma resolve_run_trace url metadata w o w' :
  url <> "" ->
  _resolve new_YoutubeDL url metadata w = (o, w') ->
  trace w'
  = (trace w ++ Print ("Resolving " ++ url) :: resolve_events url metadata o)%list.
Proof.
  intros Hurl. apply falsy_false in Hurl.
  unfold _resolve, resolve_events. rewrite Hurl.
  unfold print. rewrite bind_run. unfold emit at 1. cbv beta iota.
  unfold try_except.
  destruct (md_provider metadata) as [provider|].
  - simpl getitem. rewrite bind_ret_run.
    destruct (bind _ _ _) as [[u|e] w1] eqn:E;
      apply resolve_body_trace in E; simpl in E; intros H.
    + injection H as <- <-. rewrite E. now rewrite <- app_assoc.
    + rewrite bind_run in H. simpl in H. injection H as <- <-. simpl.
      rewrite E. now rewrite <- !app_assoc.
  - simpl getitem. unfold bind at 2, raise at 1. cbv beta iota.
    rewrite bind_run. simpl. intros H. injection H as <- <-. simpl.
    now rewrite <- app_assoc.
Qed.

Lemma engine_or_selection_of_selection e :
  selection_exn e -> engine_or_selection_exn e.
Proof. destruct e; simpl; tauto. Qed.

Lemma resolve_known_provider_raises_strict url metadata provider :
  url <> "" ->
  md_provider metadata = Some provider ->
  provider = "youtube" \/ provider = "vimeo" ->
  raises_only engine_or_selection_exn (_resolve new_YoutubeDL url metadata).
Proof.
  intros Hurl Hp Hknown. apply falsy_false in Hurl.
  unfold _resolve. rewrite Hurl.
  apply raises_only_bind; [apply raises_only_print|]. intros _.
  apply raises_only_try_except with (Q := engine_or_selection_exn).
  - rewrite Hp. apply raises_only_bind_ret.
    apply raises_only_bind.
    { unfold extract_info. raises_tac. }
    intros info.
    destruct Hknown as [-> | ->]; unfold select; simpl.
    + eapply raises_only_weaken; [apply engine_or_selection_of_selection|].
      apply yt_choose_url_raises.
    + eapply raises_only_weaken; [apply engine_or_selection_of_selection|].
      apply vimeo_choose_url_raises.
  - intros e He. apply raises_only_bind; [apply raises_only_print|].
    intros _. now apply raises_only_raise.
Qed.

Lemma download_after_quota_raises_strict video_id item :
  raises_only engine_or_selection_exn
    (download_after_quota new_YoutubeDL video_id item).
Proof.
  unfold download_after_quota.
  destruct (md_provider item) as [provider|] eqn:Hp;
    [|now apply raises_only_bind_raise].
  apply raises_only_bind_ret.
  destruct (url_formats !! provider) as [tpl|] eqn:Htpl;
    [|now apply raises_only_bind_raise].
  apply raises_only_bind_ret.
  apply url_formats_lookup in Htpl as Hknown.
  assert (PyStr.falsy tpl = false) as ->
    by (destruct Hknown as [[_ ->] | [_ ->]]; reflexivity).
  apply resolve_known_provider_raises_strict with (provider := provider);
    [|assumption|tauto].
  destruct Hknown as [[_ ->] | [_ ->]]; discriminate.
Qed.

End Resolve.

(** X7. [_resolve] logs and re-raises.  With an empty URL it raises
    [InvalidUsage('Invalid URL')] and does nothing else.  Otherwise it
    prints the URL, calls the engine once if the metadata names a
    provider (not at all if it does not), and, when the extraction or the
    selection fails, prints that exception as its last act and ends with
    it; on success nothing more is printed. *)
Theorem resolve_logs_and_reraises new_YoutubeDL url metadata w :
  let run := _resolve new_YoutubeDL url metadata w in
  (url = "" -> run = (Raises (InvalidUsage "Invalid URL"), w)) /\
  (url <> "" ->
   trace (snd run)
   = (trace w
      ++ Print ("Resolving " ++ url) :: resolve_events url metadata (fst run))%list).
Proof.
  intros run. subst run. split.
  - intros ->. reflexivity.
  - intros Hurl.
    destruct (_resolve new_YoutubeDL url metadata w) as [o w'] eqn:E.
    exact (resolve_run_trace _ _ _ _ _ _ Hurl E).
Qed.

Lemma resolve_logs_and_reraises_witness :
  trace (snd (_resolve sample_ytdl "https://vimeo.com/1"
                (mk_metadata (Some "vimeo") (Some "video") None (Some 0))
                sample_world))
  = [Print "Resolving https://vimeo.com/1"; ExtractInfo "https://vimeo.com/1";
     Print "'quality'"].
Proof.
  refine (proj2 (resolve_logs_and_reraises sample_ytdl "https://vimeo.com/1"
                   (mk_metadata (Some "vimeo") (Some "video") None (Some 0))
                   sample_world) _).
  discriminate.
Defined.

(** X8. Called with a provider other than "youtube" and "vimeo",
    [_resolve] finds out only after the extraction: the engine is called
    first, and the outcome is the engine's error if it fails and
    [ValueError('undefined provider')] if it succeeds. *)
Theorem resolve_checks_provider_after_extraction
  new_YoutubeDL url metadata provider w :
  url <> "" ->
  md_provider metadata = Some provider ->
  provider <> "youtube" -> provider <> "vimeo" ->
  let run := _resolve new_YoutubeDL url metadata w in
  fst run
  = match yt_extract_info (new_YoutubeDL opts) url with
    | inl msg => Raises (DownloadError msg)
    | inr _ => Raises (ValueError "undefined provider")
    end /\
  trace (snd run)
  = (trace w ++ [Print ("Resolving " ++ url); ExtractInfo url;
                 Print (exn_str
                          match yt_extract_info (new_YoutubeDL opts) url with
                          | inl msg => DownloadError msg
                          | inr _ => ValueError "undefined provider"
                          end)])%list.
Proof.
  intros Hurl Hp Hy Hv run.
  assert (Hfst : fst run
                 = match yt_extract_info (new_YoutubeDL opts) url with
                   | inl msg => Raises (DownloadError msg)
                   | inr _ => Raises (ValueError "undefined provider")
                   end).
  { subst run. apply String.eqb_neq in Hy. apply String.eqb_neq in Hv.
    pose proof (proj2 (falsy_false _) Hurl) as Hfalsy.
    unfold _resolve. rewrite Hfalsy, Hp.
    cbv beta iota delta [bind print emit try_except getitem ret extract_info
                         new_list raise select push_list].
    rewrite Hy, Hv.
    destruct (yt_extract_info (new_YoutubeDL opts) url) as [msg|[l|]];
      reflexivity. }
  split; [exact Hfst|].
  subst run. destruct (_resolve new_YoutubeDL url metadata w) as [o w'] eqn:E.
  cbn [fst snd] in *. rewrite (resolve_run_trace _ _ _ _ _ _ Hurl E).
  subst o. unfold resolve_events. rewrite Hp.
  now destruct (yt_extract_info (new_YoutubeDL opts) url).
Qed.

Lemma resolve_checks_provider_after_extraction_witness :
  fst (_resolve sample_ytdl "https://example.org/1"
         (mk_metadata (Some "dailymotion") (Some "video") (Some "high") (Some 0))
         sample_world)
  = Raises (ValueError "undefined provider").
Proof.
  refine (proj1 (resolve_checks_provider_after_extraction sample_ytdl
                   "https://example.org/1"
                   (mk_metadata (Some "dailymotion") (Some "video") (Some "high")
                      (Some 0))
                   "dailymotion" sample_world _ _ _ _));
    [discriminate | reflexivity | discriminate | discriminate].
Defined.

(** X9. [download] raises [InvalidUsage] exactly when the feed id or the
    video id is empty: no stored metadata and no answer of the engine
    makes it raise this exception. *)
Theorem invalid_usage_iff_empty_identifier
  timestamp new_YoutubeDL feed_id video_id w :
  is_InvalidUsage (fst (download timestamp new_YoutubeDL feed_id video_id w))
  <-> feed_id = "" \/ video_id = "".
Proof.
  rewrite <- (splitext_root_empty video_id).
  destruct (decide (feed_id = "")) as [->|Hf]; [simpl; tauto|].
  destruct (decide (fst (OsPath.splitext video_id) = "")) as [Hv|Hv].
  { rewrite download_empty_video by assumption. simpl. tauto. }
  split; [|tauto]. intros H. exfalso.
  destruct (feeds_table w !! feed_id) as [item|] eqn:Hitem.
  - rewrite (download_quota_step _ _ _ _ _ _ Hf Hv Hitem) in H.
    destruct (FeatureLevel item) as [level|]; [|exact H].
    destruct (_ && _); [exact H|].
    destruct (download_after_quota _ _ _ _) as [[u|e] w'] eqn:E; [exact H|].
    apply download_after_quota_raises_strict in E.
    destruct e; simpl in *; tauto.
  - now rewrite (download_no_feed_run _ _ _ _ _ Hf Hv Hitem) in H.
Qed.

(** ** The URL given to the engine *)

Lemma append_empty_r (s : string) : (s ++ "")%string = s.
Proof.
  induction s as [|a s IH]; [reflexivity|].
  change (String a (s ++ "")%string = String a s). now rewrite IH.
Qed.

Lemma format_youtube_url v :
  PyStr.format "https://youtube.com/watch?v={}" v
  = ("https://youtube.com/watch?v=" ++ v)%string.
Proof. simpl. now rewrite append_empty_r. Qed.

Lemma format_vimeo_url v :
  PyStr.format "https://vimeo.com/{}" v = ("https://vimeo.com/" ++ v)%string.
Proof. simpl. now rewrite append_empty_r. Qed.

Lemma substring_whole s : String.substring 0 (String.length s) s = s.
Proof. induction s as [|a s IH]; simpl; [reflexivity | now rewrite IH]. Qed.

Lemma substring_split s : forall n,
  (n <= String.length s)%nat ->
  (String.substring 0 n s ++ String.substring n (String.length s - n) s)%string = s.
Proof.
  induction s as [|a s IH]; intros n Hn.
  - simpl in Hn. assert (n = 0%nat) as -> by lia. reflexivity.
  - destruct n as [|n].
    + rewrite Nat.sub_0_r, substring_whole. reflexivity.
    + simpl in Hn.
      change (String a (String.substring 0 n s
                        ++ String.substring n (String.length s - n) s)%string
              = String a s).
      rewrite IH by lia. reflexivity.
Qed.

Lemma rfind_get c s :
  0 <= PyStr.rfind c s -> String.get (Z.to_nat (PyStr.rfind c s)) s = Some c.
Proof.
  induction s as [|a s IH]; simpl; [lia|].
  destruct (0 <=? PyStr.rfind c s) eqn:E.
  - apply Z.leb_le in E. intros _.
    replace (Z.to_nat (PyStr.rfind c s + 1)) with (S (Z.to_nat (PyStr.rfind c s)))
      by lia.
    simpl. now apply IH.
  - destruct (Ascii.eqb_spec a c) as [->|]; [reflexivity | lia].
Qed.

Lemma substring_starts s : forall n m c,
  String.get n s = Some c -> (0 < m)%nat ->
  exists rest, String.substring n m s = String c rest.
Proof.
  induction s as [|a s IH]; intros n m c Hget Hm.
  - destruct n; discriminate.
  - destruct n as [|n]; simpl in Hget.
    + injection Hget as ->. destruct m as [|m]; [lia|]. simpl. eauto.
    + simpl. now apply IH.
Qed.

(** X10. [os.path.splitext], as [download] uses it to drop the
    extension of the video id, splits the id in two: the root followed by
    the extension gives the id back; the extension is empty or starts
    with a dot; and the root of a non-empty id is not empty. *)
Theorem splitext_splits video_id :
  let root := fst (OsPath.splitext video_id) in
  let ext := snd (OsPath.splitext video_id) in
  (root ++ ext)%string = video_id /\
  (ext = "" \/ exists rest, ext = String "." rest) /\
  (video_id <> "" -> root <> "").
Proof.
  intros root ext.
  split; [|split]; [| |unfold root; now rewrite splitext_root_empty].
  - subst root ext. unfold OsPath.splitext.
    destruct (_ <? _) eqn:Hsep; simpl; [|apply append_empty_r].
    destruct (OsPath.skip_leading_dots _ _ _); simpl; [|apply append_empty_r].
    unfold PyStr.slice_to, PyStr.slice_from. apply substring_split.
    pose proof (rfind_upper "." video_id). lia.
  - subst ext. unfold OsPath.splitext.
    destruct (_ <? _) eqn:Hsep; simpl; [|now left].
    destruct (OsPath.skip_leading_dots _ _ _); simpl; [|now left].
    right. unfold PyStr.slice_from.
    apply Z.ltb_lt in Hsep.
    pose proof (rfind_lower "/" video_id).
    pose proof (rfind_upper "." video_id).
    apply substring_starts; [apply rfind_get; lia | lia].
Qed.

(** X11. When [download] returns a URL, the feed exists and its
    provider is "youtube" or "vimeo", and the run was, in this order: one
    read of the metadata, one update of today's counter, the print of the
    canonical URL and one call of the engine with it.  The canonical URL
    is [https://youtube.com/watch?v=] or [https://vimeo.com/] followed by
    the video id without its extension. *)
Theorem download_success_trace
  timestamp new_YoutubeDL feed_id video_id w u w' :
  download timestamp new_YoutubeDL feed_id video_id w = (Returns u, w') ->
  exists item url,
    feeds_table w !! feed_id = Some item /\
    ((Provider item = Some "youtube" /\
      url = ("https://youtube.com/watch?v=" ++ fst (OsPath.splitext video_id))%string)
     \/
     (Provider item = Some "vimeo" /\
      url = ("https://vimeo.com/" ++ fst (OsPath.splitext video_id))%string)) /\
    trace w'
    = (trace w ++ [GetItem feed_id;
                   UpdateItem feed_id (Calendar.day_number (utcnow w));
                   Print ("Resolving " ++ url); ExtractInfo url])%list.
Proof.
  intros Hrun.
  destruct (decide (feed_id = "")) as [->|Hf]; [discriminate Hrun|].
  destruct (decide (fst (OsPath.splitext video_id) = "")) as [Hv|Hv].
  { rewrite download_empty_video in Hrun by assumption. discriminate Hrun. }
  destruct (feeds_table w !! feed_id) as [item|] eqn:Hitem.
  2:{ rewrite (download_no_feed_run _ _ _ _ _ Hf Hv Hitem) in Hrun.
      discriminate Hrun. }
  rewrite (download_quota_step _ _ _ _ _ _ Hf Hv Hitem) in Hrun.
  destruct (FeatureLevel item) as [level|]; [|discriminate Hrun].
  destruct (_ && _); [discriminate Hrun|].
  unfold download_after_quota in Hrun. simpl md_provider in Hrun.
  destruct (Provider item) as [provider|] eqn:Hp; [|discriminate Hrun].
  simpl getitem in Hrun. rewrite bind_ret_run in Hrun.
  destruct (url_formats !! provider) as [tpl|] eqn:Htpl; [|discriminate Hrun].
  simpl getitem in Hrun. rewrite bind_ret_run in Hrun.
  apply url_formats_lookup in Htpl.
  exists item, (PyStr.format tpl (fst (OsPath.splitext video_id))).
  split; [reflexivity|]. split.
  - destruct Htpl as [[-> ->] | [-> ->]]; [left | right];
      (split; [exact Hp|]).
    + apply format_youtube_url.
    + apply format_vimeo_url.
  - assert (PyStr.falsy tpl = false) as Hfalsy
      by (destruct Htpl as [[_ ->] | [_ ->]]; reflexivity).
    rewrite Hfalsy in Hrun.
    apply resolve_run_trace in Hrun.
    + rewrite Hrun. unfold resolve_events, item_metadata. simpl md_provider.
      rewrite Hp. simpl. now rewrite <- !app_assoc.
    + destruct Htpl as [[_ ->] | [_ ->]]; discriminate.
Qed.

Lemma download_success_trace_witness :
  exists item url,
    feeds_table sample_world !! "vim" = Some item /\
    ((Provider item = Some "youtube" /\
      url = ("https://youtube.com/watch?v=" ++ fst (OsPath.splitext "76979871.mp4"))%string)
     \/
     (Provider item = Some "vimeo" /\
      url = ("https://vimeo.com/" ++ fst (OsPath.splitext "76979871.mp4"))%string)) /\
    trace (snd (sample_download "vim" "76979871.mp4" sample_world))
    = (trace sample_world
       ++ [GetItem "vim";
           UpdateItem "vim" (Calendar.day_number (utcnow sample_world));
           Print ("Resolving " ++ url); ExtractInfo url])%list.
Proof.
  apply (download_success_trace Calendar.utc_timestamp sample_ytdl
           "vim" "76979871.mp4" sample_world "https://cdn.example/v360.mp4").
  reflexivity.
Defined.

(** ** Ties in the vimeo strategy *)

Section StableSort.

Context {A : Type} (key : A -> Z).

Lemma insert_desc_nonempty k (x : A) l : insert_desc k x l <> [].
Proof. destruct l as [|[k' y] l]; simpl; [|destruct (k' <=? k)]; discriminate. Qed.

(** The head of the sorted list is the first element of greatest key. *)
Lemma head_sort_desc l :
  l <> [] ->
  exists before x after,
    l = (before ++ x :: after)%list /\
    Forall (fun y => key y < key x) before /\
    Forall (fun y => key y <= key x) after /\
    head (sort_desc (map (fun y => (key y, y)) l)) = Some (key x, x).
Proof.
  induction l as [|a l IH]; [congruence|]. intros _.
  destruct l as [|b l].
  - exists [], a, []. split; [reflexivity|]. split; [constructor|].
    split; [constructor | reflexivity].
  - destruct IH as (before & x & after & Hl & Hbefore & Hafter & Hhead);
      [discriminate|].
    change (sort_desc (map (fun y => (key y, y)) (a :: b :: l)))
      with (insert_desc (key a) a
              (sort_desc (map (fun y => (key y, y)) (b :: l)))).
    destruct (sort_desc (map _ (b :: l))) as [|[k y] rest] eqn:Hsort;
      [discriminate|].
    simpl in Hhead. injection Hhead as -> ->.
    cbn [insert_desc]. destruct (key x <=? key a) eqn:E.
    + apply Z.leb_le in E. exists [], a, (b :: l).
      split; [reflexivity|]. split; [constructor|]. split; [|reflexivity].
      rewrite Hl. apply Forall_app. split; [|constructor].
      * eapply Forall_impl; [exact Hbefore|]. simpl. intros. lia.
      * exact E.
      * eapply Forall_impl; [exact Hafter|]. simpl. intros. lia.
    + apply Z.leb_gt in E. exists (a :: before), x, after.
      split; [now rewrite Hl|]. split; [now constructor|].
      split; [assumption | reflexivity].
Qed.

Lemma last_insert_desc k0 (x0 : A) s k x :
  StronglySorted key_desc s ->
  last s = Some (k, x) ->
  last (insert_desc k0 x0 s) = Some (if k0 <? k then (k0, x0) else (k, x)).
Proof.
  induction 1 as [|[k1 y1] s Hs IH Hall]; [discriminate|].
  intros Hlast. cbn [insert_desc].
  destruct s as [|p s].
  - simpl in Hlast. injection Hlast as -> ->. simpl.
    destruct (k <=? k0) eqn:E.
    + apply Z.leb_le in E. assert ((k0 <? k) = false) as -> by (apply Z.ltb_ge; lia).
      reflexivity.
    + apply Z.leb_gt in E. assert ((k0 <? k) = true) as -> by (apply Z.ltb_lt; lia).
      reflexivity.
  - rewrite last_cons_cons in Hlast.
    destruct (k1 <=? k0) eqn:E.
    + apply Z.leb_le in E. rewrite !last_cons_cons, Hlast.
      apply last_Some_elem_of in Hlast.
      pose proof (proj1 (Forall_forall _ _) Hall _ Hlast) as Hle.
      unfold key_desc in Hle. simpl in Hle.
      assert ((k0 <? k) = false) as -> by (apply Z.ltb_ge; lia). reflexivity.
    + rewrite last_cons. rewrite (IH Hlast). reflexivity.
Qed.

(** The last element of the sorted list is the last element of least
    key. *)
Lemma last_sort_desc l :
  l <> [] ->
  exists before x after,
    l = (before ++ x :: after)%list /\
    Forall (fun y => key x <= key y) before /\
    Forall (fun y => key x < key y) after /\
    last (sort_desc (map (fun y => (key y, y)) l)) = Some (key x, x).
Proof.
  induction l as [|a l IH]; [congruence|]. intros _.
  destruct l as [|b l].
  - exists [], a, []. split; [reflexivity|]. split; [constructor|].
    split; [constructor | reflexivity].
  - destruct IH as (before & x & after & Hl & Hbefore & Hafter & Hlast);
      [discriminate|].
    change (sort_desc (map (fun y => (key y, y)) (a :: b :: l)))
      with (insert_desc (key a) a
              (sort_desc (map (fun y => (key y, y)) (b :: l)))).
    rewrite (last_insert_desc _ _ _ _ _ (sort_desc_sorted _) Hlast).
    destruct (key a <? key x) eqn:E.
    + apply Z.ltb_lt in E. exists [], a, (b :: l).
      split; [reflexivity|]. split; [constructor|]. split; [|reflexivity].
      rewrite Hl. apply Forall_app. split; [|constructor].
      * eapply Forall_impl; [exact Hbefore|]. simpl. intros. lia.
      * exact E.
      * eapply Forall_impl; [exact Hafter|]. simpl. intros. lia.
    + apply Z.ltb_ge in E. exists (a :: before), x, after.
      split; [now rewrite Hl|]. split; [now constructor|].
      split; [assumption | reflexivity].
Qed.

Lemma head_map_snd (l : list (Z * A)) : head (map snd l) = snd <$> head l.
Proof. now destruct l. Qed.

Lemma last_map_snd (l : list (Z * A)) : last (map snd l) = snd <$> last l.
Proof.
  induction l as [|p l IH]; [reflexivity|].
  cbn [map]. rewrite !last_cons, IH. now destruct (last l).
Qed.

End StableSort.

(** X12. Quality "high" in the vimeo strategy, with ties: the URL
    returned is that of the first candidate of greatest width among those
    that pass the filter, in the order the engine listed them: every
    candidate before it is strictly narrower and none after it is
    wider. *)
Theorem vimeo_high_first_widest info metadata w r candidates :
  info_formats info = Some r ->
  heap w !! r = Some candidates ->
  Forall filter_keys candidates ->
  Forall (fun x => is_Some (f_width x)) (filter vimeo_match candidates) ->
  md_quality metadata = Some "high" ->
  filter vimeo_match candidates <> [] ->
  exists before x after,
    filter vimeo_match candidates = (before ++ x :: after)%list /\
    Forall (fun y => width_of y < width_of x) before /\
    Forall (fun y => width_of y <= width_of x) after /\
    fst (_vimeo_choose_url info metadata w) = url_outcome x.
Proof.
  intros Hinfo Hheap Hkeys Hwidths Hq Hne.
  destruct (head_sort_desc width_of _ Hne)
    as (before & x & after & Hsplit & Hbefore & Hafter & Hhead).
  exists before, x, after. repeat split; try assumption.
  rewrite (vimeo_choose_url_run _ _ _ _ _ _ Hinfo Hheap Hkeys Hwidths Hq).
  change (String.eqb "high" "high") with true. cbv iota.
  unfold sorted_reverse. rewrite head_map_snd, Hhead. reflexivity.
Qed.

(** X13. Any other quality in the vimeo strategy, with ties: the URL
    returned is that of the last candidate of least width among those
    that pass the filter: none before it is narrower and every candidate
    after it is strictly wider. *)
Theorem vimeo_low_last_narrowest info metadata w r candidates quality :
  info_formats info = Some r ->
  heap w !! r = Some candidates ->
  Forall filter_keys candidates ->
  Forall (fun x => is_Some (f_width x)) (filter vimeo_match candidates) ->
  md_quality metadata = Some quality ->
  quality <> "high" ->
  filter vimeo_match candidates <> [] ->
  exists before x after,
    filter vimeo_match candidates = (before ++ x :: after)%list /\
    Forall (fun y => width_of x <= width_of y) before /\
    Forall (fun y => width_of x < width_of y) after /\
    fst (_vimeo_choose_url info metadata w) = url_outcome x.
Proof.
  intros Hinfo Hheap Hkeys Hwidths Hq Hlow Hne.
  destruct (last_sort_desc width_of _ Hne)
    as (before & x & after & Hsplit & Hbefore & Hafter & Hlast).
  exists before, x, after. repeat split; try assumption.
  rewrite (vimeo_choose_url_run _ _ _ _ _ _ Hinfo Hheap Hkeys Hwidths Hq).
  apply String.eqb_neq in Hlow. rewrite Hlow.
  unfold sorted_reverse. rewrite last_map_snd, Hlast. reflexivity.
Qed.

Lemma vimeo_high_first_widest_witness :
  exists before x after,
    filter vimeo_match tied_formats = (before ++ x :: after)%list /\
    Forall (fun y => width_of y < width_of x) before /\
    Forall (fun y => width_of y <= width_of x) after /\
    fst (_vimeo_choose_url sample_info (metadata_of_quality "high") world_with_ties)
    = url_outcome x.
Proof.
  apply (vimeo_high_first_widest sample_info (metadata_of_quality "high")
           world_with_ties 0%nat tied_formats); try reflexivity.
  - repeat constructor; simpl; eauto.
  - repeat constructor; simpl; eauto.
  - intros H. vm_compute in H. discriminate H.
Defined.

Lemma vimeo_low_last_narrowest_witness :
  exists before x after,
    filter vimeo_match tied_formats = (before ++ x :: after)%list /\
    Forall (fun y => width_of x <= width_of y) before /\
    Forall (fun y => width_of x < width_of y) after /\
    fst (_vimeo_choose_url sample_info (metadata_of_quality "low") world_with_ties)
    = url_outcome x.
Proof.
  apply (vimeo_low_last_narrowest sample_info (metadata_of_quality "low")
           world_with_ties 0%nat tied_formats "low"); try reflexivity.
  - repeat constructor; simpl; eauto.
  - repeat constructor; simpl; eauto.
  - discriminate.
  - intros H. vm_compute in H. discriminate H.
Defined.

Example vimeo_tie_high :
  fst (_vimeo_choose_url sample_info (metadata_of_quality "high") world_with_ties)
  = Returns "https://cdn.example/v720.mp4".
Proof. reflexivity. Qed.

(** ** Missing keys and empty selections *)

Lemma comprehension_missing_ext l w :
  Exists (fun x => f_ext x = None) l ->
  Forall (fun x => f_ext x = Some "mp4" -> is_Some (f_format_id x)) l ->
  comprehension vimeo_keep l w = (Raises (KeyError "ext"), w).
Proof.
  induction l as [|x l IH]; intros Hex Hall; [now apply Exists_nil in Hex|].
  apply Forall_cons in Hall as [Hx Hall]. simpl comprehension.
  destruct (f_ext x) as [ext|] eqn:Hext.
  - apply Exists_cons in Hex as [Hex|Hex]; [congruence|].
    assert (Hkeys : filter_keys x).
    { split; [rewrite Hext; eauto|]. intros H. rewrite Hext in H. now apply Hx. }
    rewrite (bind_returns _ _ _ _ _ (vimeo_keep_run x w Hkeys)).
    now rewrite (bind_raises _ _ _ _ _ (IH Hex Hall)).
  - apply bind_raises. unfold vimeo_keep. rewrite Hext. reflexivity.
Qed.

(** X14. One malformed candidate fails the vimeo strategy: if any
    candidate of the list has no ['ext'] key (and every mp4 candidate has
    its ['format_id']), the call raises [KeyError('ext')] whatever the
    other candidates and the quality are, before it has allocated
    anything. *)
Theorem vimeo_candidate_without_ext info metadata w r candidates :
  info_formats info = Some r ->
  heap w !! r = Some candidates ->
  Exists (fun x => f_ext x = None) candidates ->
  Forall (fun x => f_ext x = Some "mp4" -> is_Some (f_format_id x)) candidates ->
  _vimeo_choose_url info metadata w = (Raises (KeyError "ext"), w).
Proof.
  intros Hinfo Hheap Hex Hall. unfold _vimeo_choose_url. rewrite Hinfo.
  simpl getitem. rewrite bind_ret_run.
  rewrite (bind_returns _ _ _ _ _ (elements_of_allocated _ _ _ Hheap)).
  now rewrite (bind_raises _ _ _ _ _ (comprehension_missing_ext _ w Hex Hall)).
Qed.

Lemma vimeo_candidate_without_ext_witness :
  _vimeo_choose_url sample_info (metadata_of_quality "high") world_with_no_ext
  = (Raises (KeyError "ext"), world_with_no_ext).
Proof.
  apply (vimeo_candidate_without_ext sample_info (metadata_of_quality "high")
           world_with_no_ext 0%nat [vimeo_720; no_ext; vimeo_360]);
    try reflexivity.
  - apply Exists_cons. right. apply Exists_cons. left. reflexivity.
  - repeat constructor; simpl; eauto; discriminate.
Defined.

(** X15. The vimeo strategy reads nothing of the metadata but the
    quality: two feeds with the same stored quality get the same run,
    whatever their format, provider and feature level.  A vimeo feed
    stored with format "audio" is served the same mp4 video URL as one
    stored with "video". *)
Theorem vimeo_reads_quality_only info metadata1 metadata2 w :
  md_quality metadata1 = md_quality metadata2 ->
  _vimeo_choose_url info metadata1 w = _vimeo_choose_url info metadata2 w.
Proof.
  intros Hq. unfold _vimeo_choose_url.
  do 5 (apply bind_ext; intros ? ?). now rewrite Hq.
Qed.

Lemma vimeo_reads_quality_only_witness :
  _vimeo_choose_url sample_info
    (mk_metadata (Some "vimeo") (Some "audio") (Some "high") (Some 0))
    world_with_formats
  = _vimeo_choose_url sample_info
      (mk_metadata (Some "vimeo") (Some "video") (Some "high") (Some 1))
      world_with_formats.
Proof.
  apply (vimeo_reads_quality_only sample_info
           (mk_metadata (Some "vimeo") (Some "audio") (Some "high") (Some 0))
           (mk_metadata (Some "vimeo") (Some "video") (Some "high") (Some 1))
           world_with_formats).
  reflexivity.
Defined.

(** X16. An info dict without the key ['formats'] makes both strategies
    raise [KeyError('formats')] and change nothing: the vimeo strategy at
    once, the youtube strategy after it has read the format and the
    quality of the metadata. *)
Theorem missing_formats_key ytdl info metadata w :
  info_formats info = None ->
  _vimeo_choose_url info metadata w = (Raises (KeyError "formats"), w) /\
  (is_Some (md_format metadata) -> is_Some (md_quality metadata) ->
   _yt_choose_url ytdl info metadata w = (Raises (KeyError "formats"), w)).
Proof.
  intros Hinfo. split.
  - unfold _vimeo_choose_url. rewrite Hinfo. reflexivity.
  - intros [format Hf] [quality Hq].
    unfold _yt_choose_url, run_selector. rewrite Hinfo, Hf, Hq. reflexivity.
Qed.

Lemma missing_formats_key_witness :
  _vimeo_choose_url (mk_info None) (metadata_of_quality "high") sample_world
  = (Raises (KeyError "formats"), sample_world) /\
  _yt_choose_url (sample_ytdl opts) (mk_info None) (metadata_of_quality "high")
    sample_world
  = (Raises (KeyError "formats"), sample_world).
Proof.
  pose proof (missing_formats_key (sample_ytdl opts) (mk_info None)
                (metadata_of_quality "high") sample_world eq_refl) as [Hv Hy].
  split; [exact Hv|]. apply Hy; eexists; reflexivity.
Defined.

(** X17. When the selector of the engine yields no candidate for the
    format expression, the youtube strategy raises [StopIteration] (the
    [next] of an exhausted generator) and changes nothing. *)
Theorem yt_no_candidate ytdl info metadata w r candidates format quality :
  md_format metadata = Some format ->
  md_quality metadata = Some quality ->
  info_formats info = Some r ->
  heap w !! r = Some candidates ->
  yt_build_format_selector ytdl
    (yt_format_expression (String.eqb format "video") (String.eqb quality "high"))
    candidates = [] ->
  _yt_choose_url ytdl info metadata w = (Raises StopIteration, w).
Proof.
  intros Hf Hq Hinfo Hheap Hnone.
  now rewrite (yt_choose_url_run _ _ _ _ _ _ _ _ Hf Hq Hinfo Hheap), Hnone.
Qed.

Lemma yt_no_candidate_witness :
  _yt_choose_url (mk_ytdl (fun _ => inr None) (fun _ _ => [])) sample_info
    (metadata_of_quality "high") world_with_formats
  = (Raises StopIteration, world_with_formats).
Proof.
  apply (yt_no_candidate (mk_ytdl (fun _ => inr None) (fun _ _ => [])) sample_info
           (metadata_of_quality "high") world_with_formats 0%nat sample_formats
           "video" "high"); reflexivity.
Defined.

(** ** Requests that fail after the quota check *)

Section CountedFailures.

Variable timestamp : datetime -> Z.
Variable new_YoutubeDL : ytdl_opts -> YoutubeDL.

Lemma resolve_engine_failure url metadata provider w msg :
  url <> "" ->
  md_provider metadata = Some provider ->
  yt_extract_info (new_YoutubeDL opts) url = inl msg ->
  _resolve new_YoutubeDL url metadata w
  = (Raises (DownloadError msg),
     snd (emit (Print msg)
            (snd (emit (ExtractInfo url)
                    (snd (emit (Print ("Resolving " ++ url)) w)))))).
Proof.
  intros Hurl Hp Hfail. apply falsy_false in Hurl.
  unfold _resolve. rewrite Hurl, Hp.
  cbv beta iota delta [bind print emit try_except getitem ret extract_info
                       new_list raise push_list fst snd].
  rewrite Hfail. reflexivity.
Qed.

End CountedFailures.

(** X18. A feed whose stored metadata has no [FeatureLevel] fails every
    request with [KeyError('featurelevel')], and only after the request
    was counted: today's count of the feed is one higher, the metadata
    read and the counter update are the whole trace, the engine is not
    called. *)
Theorem missing_feature_level_counted
  timestamp new_YoutubeDL feed_id video_id w item :
  feed_id <> "" ->
  video_id <> "" ->
  feeds_table w !! feed_id = Some item ->
  FeatureLevel item = None ->
  let run := download timestamp new_YoutubeDL feed_id video_id w in
  fst run = Raises (KeyError "featurelevel") /\
  count_at (counter_key feed_id w) (snd run) = count_at (counter_key feed_id w) w + 1 /\
  heap (snd run) = heap w /\
  trace (snd run)
  = (trace w ++ [GetItem feed_id;
                 UpdateItem feed_id (Calendar.day_number (utcnow w))])%list.
Proof.
  intros Hf Hv Hitem Hlevel run. subst run.
  assert (Hroot : fst (OsPath.splitext video_id) <> "")
    by (now rewrite splitext_root_empty).
  rewrite (download_quota_step _ _ _ _ _ _ Hf Hroot Hitem), Hlevel.
  split; [reflexivity|]. split; [|split; [reflexivity|]].
  - unfold count_at. simpl. now rewrite lookup_insert_eq.
  - simpl. now rewrite <- app_assoc.
Qed.

Lemma missing_feature_level_counted_witness :
  fst (sample_download "abc" "xyz123.mp4"
         (mk_world {[ "abc" := mk_feed_item (Some "youtube") None None None ]}
                   ∅ sample_now [] []))
  = Raises (KeyError "featurelevel").
Proof.
  refine (proj1 (missing_feature_level_counted Calendar.utc_timestamp sample_ytdl
                   "abc" "xyz123.mp4"
                   (mk_world {[ "abc" := mk_feed_item (Some "youtube") None None None ]}
                             ∅ sample_now [] [])
                   (mk_feed_item (Some "youtube") None None None) _ _ _ _));
    [discriminate | discriminate | reflexivity | reflexivity].
Defined.

(** X19. A request the engine fails is counted all the same.  For a
    feed under its quota with a known provider, when [extract_info]
    raises for the canonical URL, [download] ends with that error, has
    printed it after the call, has allocated nothing, and today's count
    of the feed is one higher. *)
Theorem engine_failure_counted
  timestamp new_YoutubeDL feed_id video_id w item level provider tpl msg :
  feed_id <> "" ->
  video_id <> "" ->
  feeds_table w !! feed_id = Some item ->
  FeatureLevel item = Some level ->
  level <> 0 \/ new_count feed_id w <= 100 ->
  Provider item = Some provider ->
  url_formats !! provider = Some tpl ->
  let url := PyStr.format tpl (fst (OsPath.splitext video_id)) in
  yt_extract_info (new_YoutubeDL opts) url = inl msg ->
  let run := download timestamp new_YoutubeDL feed_id video_id w in
  fst run = Raises (DownloadError msg) /\
  count_at (counter_key feed_id w) (snd run) = count_at (counter_key feed_id w) w + 1 /\
  heap (snd run) = heap w /\
  trace (snd run)
  = (trace w ++ [GetItem feed_id;
                 UpdateItem feed_id (Calendar.day_number (utcnow w));
                 Print ("Resolving " ++ url); ExtractInfo url; Print msg])%list.
Proof.
  intros Hf Hv Hitem Hlevel Hquota Hp Htpl url Hfail run. subst run.
  assert (Hroot : fst (OsPath.splitext video_id) <> "")
    by (now rewrite splitext_root_empty).
  rewrite (download_quota_step _ _ _ _ _ _ Hf Hroot Hitem), Hlevel.
  assert (((ANONYMOUS_FEED_REQUESTS_LIMIT <? new_count feed_id w) && (level =? 0))
          = false) as ->.
  { unfold ANONYMOUS_FEED_REQUESTS_LIMIT. apply andb_false_iff.
    destruct Hquota as [Hl|Hc]; [right; now apply Z.eqb_neq | left; apply Z.ltb_ge; lia]. }
  unfold download_after_quota. simpl md_provider. rewrite Hp.
  simpl getitem. rewrite bind_ret_run, Htpl. simpl getitem. rewrite bind_ret_run.
  pose proof (url_formats_lookup _ _ Htpl) as Hknown.
  assert (PyStr.falsy tpl = false) as ->
    by (destruct Hknown as [[_ ->] | [_ ->]]; reflexivity).
  assert (Hurl : url <> "")
    by (subst url; destruct Hknown as [[_ ->] | [_ ->]]; discriminate).
  fold url.
  rewrite (resolve_engine_failure new_YoutubeDL url (item_metadata item) provider
             _ msg Hurl Hp Hfail).
  split; [reflexivity|]. split; [|split; [reflexivity|]].
  - unfold count_at. simpl. now rewrite lookup_insert_eq.
  - simpl. now rewrite <- !app_assoc.
Qed.

Lemma engine_failure_counted_witness :
  fst (download Calendar.utc_timestamp
         (fun _ => mk_ytdl (fun _ => inl "ERROR: Video unavailable") (fun _ l => l))
         "abc" "xyz123.mp4" sample_world)
  = Raises (DownloadError "ERROR: Video unavailable").
Proof.
  refine (proj1 (engine_failure_counted Calendar.utc_timestamp
                   (fun _ => mk_ytdl (fun _ => inl "ERROR: Video unavailable")
                                      (fun _ l => l))
                   "abc" "xyz123.mp4" sample_world
                   (mk_feed_item (Some "youtube") (Some "video") (Some "high") (Some 0))
                   0 "youtube" "https://youtube.com/watch?v={}"
                   "ERROR: Video unavailable" _ _ _ _ _ _ _ _));
    try reflexivity; try discriminate.
  right. vm_compute. discriminate.
Defined.

(** ** Where a URL of the vimeo strategy comes from *)

Lemma vimeo_keep_returns x w b w' :
  vimeo_keep x w = (Returns b, w') -> b = vimeo_match x /\ w' = w.
Proof.
  unfold vimeo_keep, vimeo_match.
  destruct (f_ext x) as [ext|]; [|discriminate].
  simpl getitem. rewrite bind_ret_run.
  destruct (String.eqb ext "mp4").
  - destruct (f_format_id x) as [format_id|]; [|discriminate].
    simpl getitem. rewrite bind_ret_run. intros H. now injection H as <- <-.
  - intros H. injection H as <- <-. now destruct (f_format_id x).
Qed.

Lemma comprehension_returns l : forall w kept w',
  comprehension vimeo_keep l w = (Returns kept, w') ->
  kept = filter vimeo_match l /\ w' = w.
Proof.
  induction l as [|x l IH]; intros w kept w' H.
  - injection H as <- <-. now split.
  - simpl comprehension in H. rewrite bind_run in H.
    destruct (vimeo_keep x w) as [[b|e] w1] eqn:Hx; [|discriminate].
    apply vimeo_keep_returns in Hx as [-> ->].
    rewrite bind_run in H.
    destruct (comprehension vimeo_keep l w) as [[rest|e] w2] eqn:Hl; [|discriminate].
    apply IH in Hl as [-> ->]. injection H as <- <-. split; [|reflexivity].
    destruct (vimeo_match x) eqn:E.
    + rewrite filter_cons_True; [reflexivity | now rewrite E].
    + rewrite filter_cons_False; [reflexivity | now rewrite E].
Qed.

Lemma for_each_width_returns l : forall w keyed w',
  for_each (fun x => let! k := getitem "width" (f_width x) in ret (k, x)) l w
  = (Returns keyed, w') ->
  map snd keyed = l.
Proof.
  induction l as [|x l IH]; intros w keyed w' H.
  - now injection H as <- <-.
  - simpl for_each in H. rewrite bind_run in H.
    destruct (f_width x) as [k|]; [|discriminate].
    simpl getitem in H. rewrite bind_ret_run in H.
    unfold ret at 1 in H. cbv beta iota in H. rewrite bind_run in H.
    destruct (for_each _ l w) as [[rest|e] w1] eqn:Hl; [|discriminate].
    apply IH in Hl. injection H as <- <-. simpl. now rewrite Hl.
Qed.

Lemma py_index_returns {A} (l : list A) i w x w' :
  py_index l i w = (Returns x, w') -> x ∈ l.
Proof.
  unfold py_index. destruct (_ || _); [discriminate|].
  destruct (l !! _) as [y|] eqn:E; [|discriminate].
  intros H. injection H as <- <-. eapply list_elem_of_lookup_2, E.
Qed.

Lemma sorted_reverse_elem_of (keyed : list (Z * fmt_dict)) x :
  x ∈ sorted_reverse keyed <-> x ∈ map snd keyed.
Proof.
  unfold sorted_reverse.
  assert (Hperm : map snd (sort_desc keyed) ≡ₚ map snd keyed)
    by (apply Permutation_map, sort_desc_perm).
  now rewrite Hperm.
Qed.

(** X20. Every URL the vimeo strategy returns is the ['url'] of a
    candidate of the list that has extension "mp4" and a format id
    starting with "http-": whatever the candidates look like and whatever
    the quality is, it returns no URL of a candidate that the filter
    rejects, and none that is not in the list. *)
Theorem vimeo_returns_a_filtered_url info metadata w u w' :
  _vimeo_choose_url info metadata w = (Returns u, w') ->
  exists r x,
    info_formats info = Some r /\
    x ∈ default [] (heap w !! r) /\
    f_ext x = Some "mp4" /\
    (exists format_id,
       f_format_id x = Some format_id /\ String.prefix "http-" format_id = true) /\
    f_url x = Some u.
Proof.
  unfold _vimeo_choose_url.
  destruct (info_formats info) as [r|]; [|discriminate].
  simpl getitem. rewrite bind_ret_run, bind_elements_of_run, bind_run.
  set (candidates := default [] (heap w !! r)).
  destruct (comprehension vimeo_keep candidates w) as [[kept|e] w1] eqn:Hkept;
    [|discriminate].
  apply comprehension_returns in Hkept as [-> ->].
  rewrite bind_new_list_run. unfold py_sorted_by_width_reverse.
  rewrite (bind_run (bind _ _)), bind_elements_of_run, elements_of_pushed, bind_run.
  destruct (for_each _ _ _) as [[keyed|e] w2] eqn:Hkeyed; [|discriminate].
  apply for_each_width_returns in Hkeyed.
  unfold new_list at 1. cbv beta iota. rewrite bind_run.
  destruct (getitem "quality" _ _) as [[quality|e] w3] eqn:Hq; [|discriminate].
  assert (w3 = push_list (sorted_reverse keyed) w2) as ->.
  { destruct (md_quality metadata); simpl in Hq; [|discriminate].
    now injection Hq as _ <-. }
  rewrite bind_elements_of_run, elements_of_pushed, bind_run.
  destruct (if String.eqb quality "high" then _ else _) as [[item|e] w4] eqn:Hitem;
    [|discriminate].
  assert (Hin : item ∈ sorted_reverse keyed).
  { destruct (String.eqb quality "high"); eapply py_index_returns, Hitem. }
  apply (proj1 (sorted_reverse_elem_of keyed item)) in Hin. rewrite Hkeyed in Hin.
  apply list_elem_of_filter in Hin as [Hmatch Hin].
  apply Is_true_true, vimeo_match_spec in Hmatch as [Hext Hid].
  destruct (f_url item) as [v|] eqn:Hurl; [|discriminate].
  intros H. injection H as <- _.
  exists r, item. repeat split; assumption.
Qed.

Lemma vimeo_returns_a_filtered_url_witness :
  exists r x,
    info_formats sample_info = Some r /\
    x ∈ default [] (heap world_with_formats !! r) /\
    f_ext x = Some "mp4" /\
    (exists format_id,
       f_format_id x = Some format_id /\ String.prefix "http-" format_id = true) /\
    f_url x = Some "https://cdn.example/v360.mp4".
Proof.
  apply (vimeo_returns_a_filtered_url sample_info (metadata_of_quality "low")
           world_with_formats "https://cdn.example/v360.mp4"
           (snd (_vimeo_choose_url sample_info (metadata_of_quality "low")
                   world_with_formats))).
  reflexivity.
Defined.
